(** * web-search: the search tool of the MCP server (src/index.ts)

    A shallow embedding of the two variants of the server found in
    [src/index.ts]: the argument guard [isValidSearchArgs], the
    [CallToolRequestSchema] handler, the tool callback registered with
    [registerTool], and both [performSearch] functions, followed by the
    properties of the specification that concern them.

    What the embedding takes from outside the repository:
    - a JavaScript number is [Js.number]: NaN, the two infinities, or a
      rational.  Every finite double is a rational, and the only operations
      the code applies to a limit ([||], [Math.min], [>=]) are exact, so a
      statement proved for all rationals holds for all doubles.  The two
      zeros are one value; both are falsy and nothing here tells them apart;
    - the body of the HTTP response is given as the tree [cheerio.load]
      builds from it ([Dom.document]); selectors, [find], [text] and [attr]
      are defined on that tree;
    - console output and outbound requests are events of a trace. *)

From Stdlib Require Import List String Ascii Bool Arith ZArith QArith Lia Lqa.
Import ListNotations.
#[local] Set Warnings "-register-all".

Local Close Scope Q_scope.
Local Open Scope string_scope.
Local Open Scope list_scope.

(* ------------------------------------------------------------------ *)
(** ** JavaScript values *)

Module Js.

(** [number]: the values of type number. *)
Inductive number : Type :=
| NaN
| PosInfinity
| NegInfinity
| Finite (q : Q).

Definition of_Z (z : Z) : number := Finite (inject_Z z).
Definition of_nat (n : nat) : number := of_Z (Z.of_nat n).

(** [a >= b]; every comparison with NaN is false. *)
Definition ge (a b : number) : bool :=
  match a, b with
  | NaN, _ | _, NaN => false
  | PosInfinity, _ => true
  | _, NegInfinity => true
  | NegInfinity, _ => false
  | Finite _, PosInfinity => false
  | Finite p, Finite q => Qle_bool q p
  end.

(** [a <= b] is [b >= a]. *)
Definition le (a b : number) : bool := ge b a.

(** [Math.min(a, b)]. *)
Definition Math_min (a b : number) : number :=
  match a, b with
  | NaN, _ | _, NaN => NaN
  | NegInfinity, _ | _, NegInfinity => NegInfinity
  | PosInfinity, x => x
  | x, PosInfinity => x
  | Finite p, Finite q => if Qle_bool p q then Finite p else Finite q
  end.

(** The values a request can carry ([any] at the boundary). *)
Inductive value : Type :=
| VUndefined
| VNull
| VBoolean (b : bool)
| VNumber (n : number)
| VString (s : string)
| VArray (items : list value)
| VObject (props : list (string * value)).

(** [typeof v]. *)
Definition typeof (v : value) : string :=
  match v with
  | VUndefined => "undefined"
  | VNull => "object"
  | VBoolean _ => "boolean"
  | VNumber _ => "number"
  | VString _ => "string"
  | VArray _ => "object"
  | VObject _ => "object"
  end.

(** ToBoolean. *)
Definition truthy (v : value) : bool :=
  match v with
  | VUndefined | VNull => false
  | VBoolean b => b
  | VNumber NaN => false
  | VNumber (Finite q) => negb (Qeq_bool q (inject_Z 0))
  | VNumber _ => true
  | VString s => negb (s =? "")
  | VArray _ | VObject _ => true
  end.

(** [a || b]. *)
Definition or (a b : value) : value := if truthy a then a else b.

Fixpoint lookup (key : string) (props : list (string * value)) : value :=
  match props with
  | [] => VUndefined
  | (k, v) :: rest => if k =? key then v else lookup key rest
  end.

(** [v.key] for the two names the handler reads, [query] and [limit]: a
    property of an object, [undefined] on every other non-null value (no
    array, string, number or boolean has a property of either name). *)
Definition get (v : value) (key : string) : value :=
  match v with
  | VObject props => lookup key props
  | _ => VUndefined
  end.

(** [v === undefined] and [v !== null]. *)
Definition is_undefined (v : value) : bool :=
  match v with VUndefined => true | _ => false end.

Definition is_null (v : value) : bool :=
  match v with VNull => true | _ => false end.

End Js.

(* ------------------------------------------------------------------ *)
(** ** The parsed page and the cheerio operations the code uses *)

Module Dom.

Inductive node : Type :=
| Text (data : string)
| Element (name : string) (attribs : list (string * string)) (children : list node).

Definition document : Type := list node.

Fixpoint attribute (name : string) (attribs : list (string * string)) : option string :=
  match attribs with
  | [] => None
  | (k, v) :: rest => if k =? name then Some v else attribute name rest
  end.

(** The text of a node: its own data, or the texts of its children joined. *)
Fixpoint textContent (n : node) : string :=
  match n with
  | Text data => data
  | Element _ _ children => String.concat "" (map textContent children)
  end.

(** The nodes below [n], in document order. *)
Fixpoint descendants (n : node) : list node :=
  match n with
  | Text _ => []
  | Element _ _ children => flat_map (fun c => c :: descendants c) children
  end.

Definition nodes (d : document) : list node :=
  flat_map (fun c => c :: descendants c) d.

Definition is_space (c : ascii) : bool :=
  match nat_of_ascii c with
  | 9 | 10 | 11 | 12 | 13 | 32 => true
  | _ => false
  end.

(** The white-space separated tokens of a [class] attribute. *)
Fixpoint tokens (cur s : string) : list string :=
  match s with
  | EmptyString => if cur =? "" then [] else [cur]
  | String c rest =>
      if is_space c
      then (if cur =? "" then tokens "" rest else cur :: tokens "" rest)
      else tokens (cur ++ String c "") rest
  end.

Definition hasClass (cls : string) (n : node) : bool :=
  match n with
  | Text _ => false
  | Element _ attribs _ =>
      match attribute "class" attribs with
      | Some v => existsb (String.eqb cls) (tokens "" v)
      | None => false
      end
  end.

Definition hasName (tag : string) (n : node) : bool :=
  match n with
  | Text _ => false
  | Element name _ _ => name =? tag
  end.

End Dom.

Module Cheerio.
Import Dom.

(** The three selector shapes of the source: [tag], [.class], [tag.class]. *)
Inductive selector : Type :=
| Tag (name : string)
| Class (cls : string)
| TagClass (name cls : string).

Fixpoint split_dot (acc s : string) : string * option string :=
  match s with
  | EmptyString => (acc, None)
  | String c rest =>
      if Ascii.eqb c "."%char then (acc, Some rest)
      else split_dot (acc ++ String c "") rest
  end.

Definition parse (s : string) : selector :=
  match split_dot "" s with
  | (tag, None) => Tag tag
  | (EmptyString, Some cls) => Class cls
  | (tag, Some cls) => TagClass tag cls
  end.

Definition matches (sel : selector) (n : node) : bool :=
  match sel with
  | Tag name => hasName name n
  | Class cls => hasClass cls n
  | TagClass name cls => hasName name n && hasClass cls n
  end.

(** [$(sel)]: the matching elements of the page, in document order. *)
Definition select (d : document) (sel : string) : list node :=
  filter (matches (parse sel)) (nodes d).

(** [$(element).find(sel)]: the matching elements below [element]. *)
Definition find (element : node) (sel : string) : list node :=
  filter (matches (parse sel)) (descendants element).

(** [selection.text()]: the texts of the selected elements, joined. *)
Definition text (selection : list node) : string :=
  String.concat "" (map textContent selection).

(** [selection.attr(name)]: the attribute of the first selected element. *)
Definition attr (selection : list node) (name : string) : option string :=
  match selection with
  | Element _ attribs _ :: _ => attribute name attribs
  | _ => None
  end.

(** [selection.each(callback)], with the state the callback closes over
    passed explicitly.  The callback gets the index and the element and
    returns the new state and whether to go on ([return false] stops). *)
Fixpoint each_from {S : Type} (i : nat) (selection : list node)
    (callback : nat -> node -> S -> S * bool) (s : S) : S :=
  match selection with
  | [] => s
  | element :: rest =>
      match callback i element s with
      | (s', true) => each_from (Datatypes.S i) rest callback s'
      | (s', false) => s'
      end
  end.

Definition each {S : Type} (selection : list node)
    (callback : nat -> node -> S -> S * bool) (s : S) : S :=
  each_from 0 selection callback s.

End Cheerio.

(* ------------------------------------------------------------------ *)
(** ** Errors, effects and the result types *)

Module Runtime.

(** [ErrorCode]: the two codes the handler throws. *)
Inductive ErrorCode : Type :=
| MethodNotFound
| InvalidParams.

Inductive exn : Type :=
| McpError (code : ErrorCode) (message : string)
| AxiosError    (* the promise of [axios.get] was rejected *)
| TypeError.    (* only in branches the type guard has excluded *)

(** What a run leaves behind: the requests sent and the debug lines. *)
Inductive event : Type :=
| HttpGet (url q userAgent : string)
| ConsoleDebug (query : string) (limit : Js.number).

Definition trace : Type := list event.

Definition is_get (e : event) : bool :=
  match e with HttpGet _ _ _ => true | ConsoleDebug _ _ => false end.

(** The number of requests the fetcher has sent. *)
Definition fetches (t : trace) : nat := List.length (filter is_get t).

(** [response.data], as the tree [cheerio.load] makes of it. *)
Record AxiosResponse : Type := { data : Dom.document }.

(** The upstream: what a GET of [url] with parameter [q] answers; [None]
    when the request fails (no connection, or a status outside 2xx). *)
Definition network : Type := string -> string -> option AxiosResponse.

Inductive outcome (A : Type) : Type :=
| Returned (a : A)
| Thrown (e : exn).
Arguments Returned {A} a.
Arguments Thrown {A} e.

(** An async function: it runs against the trace so far and either returns
    or throws. *)
Definition M (A : Type) : Type := trace -> outcome A * trace.

Definition ret {A : Type} (a : A) : M A := fun t => (Returned a, t).

Definition throw {A : Type} (e : exn) : M A := fun t => (Thrown e, t).

Definition bind {A B : Type} (m : M A) (k : A -> M B) : M B :=
  fun t =>
    match m t with
    | (Returned a, t') => k a t'
    | (Thrown e, t') => (Thrown e, t')
    end.

Definition emit (e : event) : M unit := fun t => (Returned tt, t ++ [e]).

(** [await axios.get(url, { params: { q }, headers: { 'User-Agent': ua } })]. *)
Definition axios_get (net : network) (url q userAgent : string) : M AxiosResponse :=
  fun t =>
    match net url q with
    | Some response => (Returned response, t ++ [HttpGet url q userAgent])
    | None => (Thrown AxiosError, t ++ [HttpGet url q userAgent])
    end.

Record SearchResult : Type := {
  title : string;
  url : string;
  description : string;
}.

(** What [JSON.stringify] is given: the array [results], or the object
    [{ results }]. *)
Inductive payload : Type :=
| Results (results : list SearchResult)
| Structured (results : list SearchResult).

(** The string [JSON.stringify(v, null, space)], kept as the value it
    renders. *)
Inductive json_text : Type :=
| JSON_stringify (v : payload) (space : nat).

Record content_item : Type := { type : string; text : json_text }.

Record CallToolResult : Type := {
  content : list content_item;
  structuredContent : option payload;
}.

(** [{ query: string; limit?: number }], the type the guard narrows to. *)
Record SearchArgs : Type := { query : string; limit : option Js.number }.

(** [limit || d] for [limit : number | undefined]. *)
Definition or_number (limit : option Js.number) (d : Js.number) : Js.number :=
  match limit with
  | Some n => if Js.truthy (Js.VNumber n) then n else d
  | None => d
  end.

(** [s || d] for a string. *)
Definition or_string (s d : string) : string := if s =? "" then d else s.

Definition userAgent : string :=
  "Mozilla/5.0 (Windows NT 10.0; Win64; x64) AppleWebKit/537.36 (KHTML, like Gecko) Chrome/91.0.4472.124 Safari/537.36".

Definition endpoint : string := "https://www.google.com/search".

End Runtime.

Declare Scope run_scope.
Delimit Scope run_scope with run.
Notation "x <- m ;; k" := (Runtime.bind m (fun x => k))
  (at level 61, m at next level, right associativity) : run_scope.
Notation "m ;; k" := (Runtime.bind m (fun _ => k))
  (at level 61, right associativity) : run_scope.

(** Unfolds one layer of the operations on runs. *)
Ltac run :=
  unfold Runtime.bind, Runtime.ret, Runtime.throw, Runtime.emit, Runtime.axios_get;
  cbv zeta.

(* ------------------------------------------------------------------ *)
(** ** The scan of the result blocks, common to both variants *)

Module Extractor.
Import Runtime.

(** The body of the callback given to [$('div.g').each]: lines 103-118 of
    the first variant and 280-295 of the second, which are the same text.
    [results] is the array the callback pushes to; the boolean is [false]
    where the callback returns [false]. *)
Definition callback (limit : Js.number) (i : nat) (element : Dom.node)
    (results : list SearchResult) : list SearchResult * bool :=
  if Js.ge (Js.of_nat i) limit then (results, false)
  else
    let titleElement := Cheerio.find element "h3" in
    let linkElement := Cheerio.find element "a" in
    let snippetElement := Cheerio.find element ".VwiC3b" in
    let url := Cheerio.attr linkElement "href" in
    match url with
    | Some href =>
        if negb (List.length titleElement =? 0)%nat
           && negb (List.length linkElement =? 0)%nat
           && String.prefix "http" href
        then (results ++ [ {| title := Cheerio.text titleElement;
                              url := href;
                              description := or_string (Cheerio.text snippetElement) "" |} ],
              true)
        else (results, true)
    | None => (results, true)    (* [url?.startsWith] is undefined, falsy *)
    end.

End Extractor.

(* ------------------------------------------------------------------ *)
(** ** First variant: [Server] with a [CallToolRequestSchema] handler *)

Module Variant1.
Import Runtime.
Local Open Scope run_scope.

(** Lines 20-24. *)
Definition isValidSearchArgs (args : Js.value) : bool :=
  (Js.typeof args =? "object")
  && negb (Js.is_null args)
  && (Js.typeof (Js.get args "query") =? "string")
  && (Js.is_undefined (Js.get args "limit")
      || (Js.typeof (Js.get args "limit") =? "number")).

(** The value seen at the narrowed type. *)
Definition asSearchArgs (args : Js.value) : option SearchArgs :=
  match Js.get args "query", Js.get args "limit" with
  | Js.VString q, Js.VUndefined => Some {| query := q; limit := None |}
  | Js.VString q, Js.VNumber n => Some {| query := q; limit := Some n |}
  | _, _ => None
  end.

(** [Math.min(limit || 5, 10)], line 74. *)
Definition effectiveLimit (limit : option Js.number) : Js.number :=
  Js.Math_min (or_number limit (Js.of_nat 5)) (Js.of_nat 10).

Section Server.
Variable net : network.

(** Lines 91-121. *)
Definition performSearch (query : string) (limit : Js.number) : M (list SearchResult) :=
  response <- axios_get net endpoint query userAgent ;;
  let doc := data response in
  let results := [] in
  let results := Cheerio.each (Cheerio.select doc "div.g") (Extractor.callback limit) results in
  ret results.

(** The handler of [CallToolRequestSchema], lines 64-86, given
    [request.params.name] and [request.params.arguments].  The last branch
    is not reached: the guard has accepted the arguments. *)
Definition callTool (name : string) (arguments : Js.value) : M CallToolResult :=
  if negb (name =? "search")
  then throw (McpError MethodNotFound ("Unknown tool: " ++ name))
  else if negb (isValidSearchArgs arguments)
  then throw (McpError InvalidParams "Invalid search arguments")
  else
    match asSearchArgs arguments with
    | Some args =>
        let query := query args in
        let limit := effectiveLimit (limit args) in
        results <- performSearch query limit ;;
        ret {| content := [ {| type := "text"; text := JSON_stringify (Results results) 2 |} ];
               structuredContent := None |}
    | None => throw TypeError
    end.

End Server.
End Variant1.

(* ------------------------------------------------------------------ *)
(** ** Second variant: [McpServer] with [registerTool] *)

Module Variant2.
Import Runtime.
Local Open Scope run_scope.

(** The declared schema of [limit], lines 233-238:
    [z.number().min(1).max(10).optional()]. *)
Definition limitSchema (limit : option Js.number) : bool :=
  match limit with
  | None => true
  | Some n => Js.ge n (Js.of_nat 1) && Js.le n (Js.of_nat 10)
  end.

(** The record pushed before the scan, lines 274-278. *)
Definition placeholder : SearchResult :=
  {| title := "titleElement";
     url := "http://localhost";
     description := "snippetElement.text()" |}.

Section Server.
Variable net : network.

(** Lines 258-298. *)
Definition performSearch (query : string) (limit : Js.number) : M (list SearchResult) :=
  emit (ConsoleDebug query limit) ;;
  response <- axios_get net endpoint query userAgent ;;
  let doc := data response in
  let results := [] in
  let results := results ++ [placeholder] in
  let results := Cheerio.each (Cheerio.select doc "div.g") (Extractor.callback limit) results in
  ret results.

(** The callback registered for the tool [search], lines 242-254, on
    arguments the schema has accepted. *)
Definition searchTool (args : SearchArgs) : M CallToolResult :=
  results <- performSearch (query args) (or_number (limit args) (Js.of_nat 5)) ;;
  let structuredContent := Structured results in
  ret {| content := [ {| type := "text"; text := JSON_stringify structuredContent 2 |} ];
         structuredContent := Some structuredContent |}.

End Server.
End Variant2.

(* ------------------------------------------------------------------ *)
(** ** Views of the scan used to state the properties *)

Module Scan.
Import Runtime.

(** The record a block yields, if the callback accepts it. *)
Definition extract (element : Dom.node) : option SearchResult :=
  let titleElement := Cheerio.find element "h3" in
  let linkElement := Cheerio.find element "a" in
  let snippetElement := Cheerio.find element ".VwiC3b" in
  match Cheerio.attr linkElement "href" with
  | Some href =>
      if negb (List.length titleElement =? 0)%nat
         && negb (List.length linkElement =? 0)%nat
         && String.prefix "http" href
      then Some {| title := Cheerio.text titleElement;
                   url := href;
                   description := or_string (Cheerio.text snippetElement) "" |}
      else None
  | None => None
  end.

Definition option_list {A : Type} (o : option A) : list A :=
  match o with Some a => [a] | None => [] end.

(** The records of the accepted blocks of a list, in its order. *)
Definition collect (blocks : list Dom.node) : list SearchResult :=
  flat_map (fun element => option_list (extract element)) blocks.

(** A block is well formed when the callback accepts it. *)
Definition wellFormed (element : Dom.node) : bool :=
  match extract element with Some _ => true | None => false end.

(** The blocks the loop reaches before [i >= limit] stops it, [i] being
    the index of the first block of [blocks]. *)
Fixpoint visited (i : nat) (limit : Js.number) (blocks : list Dom.node) : list Dom.node :=
  match blocks with
  | [] => []
  | element :: rest =>
      if Js.ge (Js.of_nat i) limit then []
      else element :: visited (S i) limit rest
  end.

(** [Subseq l1 l2]: [l1] is [l2] with some elements left out, the others
    in the same order. *)
Inductive Subseq {A : Type} : list A -> list A -> Prop :=
| Subseq_nil : Subseq [] []
| Subseq_skip (x : A) (l1 l2 : list A) : Subseq l1 l2 -> Subseq l1 (x :: l2)
| Subseq_keep (x : A) (l1 l2 : list A) : Subseq l1 l2 -> Subseq (x :: l1) (x :: l2).

(** [r] is made of the parts of a candidate block of the page: the block
    has a heading and an anchor, [url r] is the [href] of its first anchor,
    [title r] the text of its headings and [description r] the text of its
    snippet elements. *)
Definition FromBlock (d : Dom.document) (r : SearchResult) : Prop :=
  exists element,
    In element (Cheerio.select d "div.g") /\
    Cheerio.find element "h3" <> [] /\
    Cheerio.find element "a" <> [] /\
    Cheerio.attr (Cheerio.find element "a") "href" = Some (url r) /\
    title r = Cheerio.text (Cheerio.find element "h3") /\
    description r = Cheerio.text (Cheerio.find element ".VwiC3b").

(** The block fails a condition of the acceptance test. *)
Definition Rejected (element : Dom.node) : Prop :=
  Cheerio.find element "h3" = [] \/
  Cheerio.find element "a" = [] \/
  (forall href, Cheerio.attr (Cheerio.find element "a") "href" = Some href ->
                String.prefix "http" href = false).

(** [a < b]. *)
Definition lt (a b : Js.number) : bool :=
  match a, b with
  | Js.NaN, _ | _, Js.NaN => false
  | _, _ => negb (Js.ge a b)
  end.

(** The request the fetcher sends for the query [q]. *)
Definition request (q : string) : event := HttpGet endpoint q userAgent.

(** The envelope the first handler returns for [results]. *)
Definition envelope (results : list SearchResult) : CallToolResult :=
  {| content := [ {| type := "text"; text := JSON_stringify (Results results) 2 |} ];
     structuredContent := None |}.

(** The arguments the specification calls valid: a structure with a string
    [query] and a [limit] that is absent or a number. *)
Definition SearchStructure (arguments : Js.value) : Prop :=
  exists props q,
    arguments = Js.VObject props /\
    Js.lookup "query" props = Js.VString q /\
    (Js.lookup "limit" props = Js.VUndefined \/
     exists n, Js.lookup "limit" props = Js.VNumber n).

End Scan.

(* ------------------------------------------------------------------ *)
(** ** Pages and requests used as examples *)

Module Fixtures.
Import Dom Runtime.

(** [<div class="g"><a href=HREF><h3>TITLE</h3></a><div class="VwiC3b">SNIPPET</div></div>] *)
Definition block (title href snippet : string) : node :=
  Element "div" [("class", "g")]
    [ Element "a" [("href", href)] [ Element "h3" [] [Text title] ];
      Element "div" [("class", "VwiC3b")] [Text snippet] ].

(** A block with a heading and no anchor. *)
Definition blockNoAnchor : node :=
  Element "div" [("class", "g")] [ Element "h3" [] [Text "no link"] ].

(** A block whose heading has no text. *)
Definition blockEmptyHeading : node :=
  Element "div" [("class", "g tF2Cxc")]
    [ Element "a" [("href", "https://example.org/")] [ Element "h3" [] [] ] ].

Definition rust : node :=
  block "Rust Programming Language" "https://www.rust-lang.org/" "A language empowering everyone".

Definition book : node :=
  block "The Rust Book" "https://doc.rust-lang.org/book/" "".

Definition relative : node :=
  block "Images" "/search?tbm=isch" "more".

Definition page (blocks : list node) : document :=
  [ Element "html" []
      [ Element "head" [] [ Element "title" [] [Text "rust - Google Search"] ];
        Element "body" [] [ Element "div" [("id", "search")] blocks ] ] ].

(** An upstream that answers every request with the page [d]. *)
Definition serve (d : document) : network := fun _ _ => Some {| data := d |}.

(** An upstream that cannot be reached. *)
Definition offline : network := fun _ _ => None.

Definition half : Js.number := Js.Finite (1 # 2).

Definition args (q : string) (limit : Js.value) : Js.value :=
  Js.VObject [("query", Js.VString q); ("limit", limit)].

Definition rustRecord : SearchResult :=
  {| title := "Rust Programming Language";
     url := "https://www.rust-lang.org/";
     description := "A language empowering everyone" |}.

Definition bookRecord : SearchResult :=
  {| title := "The Rust Book";
     url := "https://doc.rust-lang.org/book/";
     description := "" |}.

End Fixtures.

(* ------------------------------------------------------------------ *)
(** ** Tool discovery (first variant) *)

Module Discovery.
Import Runtime.

Record Tool : Type := {
  name : string;
  description : string;
  inputSchema : Js.value;
}.

Record ListToolsResult : Type := { tools : list Tool }.

(** The handler of [ListToolsRequestSchema], lines 39-62. *)
Definition listTools : M ListToolsResult :=
  ret {| tools :=
    [ {| name := "search";
         description := "Search the web using Google (no API key required)";
         inputSchema :=
           Js.VObject
             [ ("type", Js.VString "object");
               ("properties",
                Js.VObject
                  [ ("query",
                     Js.VObject
                       [ ("type", Js.VString "string");
                         ("description", Js.VString "Search query") ]);
                    ("limit",
                     Js.VObject
                       [ ("type", Js.VString "number");
                         ("description",
                          Js.VString "Maximum number of results to return (default: 5)");
                         ("minimum", Js.VNumber (Js.of_nat 1));
                         ("maximum", Js.VNumber (Js.of_nat 10)) ]) ]);
               ("required", Js.VArray [Js.VString "query"]) ] |} ] |}.

End Discovery.

(* ------------------------------------------------------------------ *)
(** ** The POST route of the two HTTP servers *)

Module Express.

(** What the route reads of the request: [req.body], as [express.json()]
    has parsed it ([undefined] when there is none). *)
Record Request : Type := { body : Js.value }.

(** What the route reads and writes of the response. *)
Record Response : Type := {
  statusCode : nat;
  headersSent : bool;
  sent : option Js.value;
}.

(** [res.status(code).json(obj)], on a response whose headers have not
    been sent. *)
Definition status_json (code : nat) (obj : Js.value) (res : Response) : Response :=
  {| statusCode := code; headersSent := true; sent := Some obj |}.

(** The object both routes answer with when they catch an error. *)
Definition internalError (id : Js.value) : Js.value :=
  Js.VObject
    [ ("jsonrpc", Js.VString "2.0");
      ("error",
       Js.VObject
         [ ("code", Js.VNumber (Js.of_Z (-32603)));
           ("message", Js.VString "Internal server error") ]);
      ("id", id) ].

(** A line of [console.error('Error handling MCP request:', error)]. *)
Inductive console (E : Type) : Type :=
| ConsoleError (text : string) (error : E).
Arguments ConsoleError {E} text error.

End Express.

(** First variant, lines 127-155.  The SDK is given: [connect] is what
    [await server.connect(transport)] throws, if anything; [handleRequest]
    is [await transport.handleRequest(req, res, req.body)], which writes to
    the response and may throw.  The listener registered with [res.on] does
    not run inside the route. *)
Module Http1.
Section App.
Variable E : Type.
Variable connect : option E.
Variable handleRequest :
  Express.Request -> Express.Response -> Js.value -> option E * Express.Response.

Definition post (req : Express.Request) (res : Express.Response)
  : Express.Response * list (Express.console E) :=
  let catch (error : E) (res : Express.Response) :=
    (if negb (Express.headersSent res)
     then Express.status_json 500 (Express.internalError Js.VNull) res
     else res,
     [Express.ConsoleError "Error handling MCP request:" error]) in
  match connect with
  | Some error => catch error res
  | None =>
      match handleRequest req res (Express.body req) with
      | (None, res') => (res', [])
      | (Some error, res') => catch error res'
      end
  end.

End App.
End Http1.

(** Second variant, lines 327-341: the transport is shared and already
    connected; the caught error is answered with [req.body?.id || null]. *)
Module Http2.
Section App.
Variable E : Type.
Variable handleRequest :
  Express.Request -> Express.Response -> Js.value -> option E * Express.Response.

Definition post (req : Express.Request) (res : Express.Response)
  : Express.Response * list (Express.console E) :=
  match handleRequest req res (Express.body req) with
  | (None, res') => (res', [])
  | (Some error, res') =>
      (if negb (Express.headersSent res')
       then Express.status_json 500
              (Express.internalError (Js.or (Js.get (Express.body req) "id") Js.VNull))
              res'
       else res',
       [Express.ConsoleError "Error handling MCP request:" error])
  end.

End App.
End Http2.

(* ------------------------------------------------------------------ *)
(** ** Further pages used as examples *)

Module MoreFixtures.
Import Dom Runtime Fixtures.


(** A transport that throws before it has written anything. *)
Definition failing (req : Express.Request) (res : Express.Response) (parsedBody : Js.value)
  : option string * Express.Response := (Some "boom", res).

Definition fresh : Express.Response :=
  {| Express.statusCode := 200; Express.headersSent := false; Express.sent := None |}.

(** A block whose first anchor is a relative link and whose second anchor
    is the result link. *)
Definition twoAnchors : node :=
  Element "div" [("class", "g")]
    [ Element "a" [("href", "/url?q=cache")] [Text "Cached"];
      Element "a" [("href", "https://www.rust-lang.org/")]
        [ Element "h3" [] [Text "Rust Programming Language"] ] ].

Definition rpc (id : Js.value) : Express.Request :=
  {| Express.body :=
       Js.VObject [("jsonrpc", Js.VString "2.0"); ("id", id);
                   ("method", Js.VString "tools/call")] |}.

End MoreFixtures.

(* ------------------------------------------------------------------ *)
(** ** Numbers *)

Module NumberFacts.

Lemma ge_of_nat (i n : nat) : Js.ge (Js.of_nat i) (Js.of_nat n) = (n <=? i)%nat.
Proof.
  unfold Js.of_nat, Js.of_Z; simpl.
  destruct (Nat.leb_spec n i) as [Hle | Hlt].
  - apply Qle_bool_iff. rewrite <- Zle_Qle. lia.
  - apply not_true_is_false. intro H.
    apply Qle_bool_iff in H. rewrite <- Zle_Qle in H. lia.
Qed.

Lemma ge_trans (a b c : Js.number) :
  Js.ge a b = true -> Js.ge b c = true -> Js.ge a c = true.
Proof.
  destruct a, b, c; simpl; try discriminate; try reflexivity.
  intros Hab Hbc. apply Qle_bool_iff.
  apply Qle_bool_iff in Hab. apply Qle_bool_iff in Hbc.
  eapply Qle_trans; eassumption.
Qed.

Lemma le_of_nat (m n : nat) : Js.le (Js.of_nat m) (Js.of_nat n) = (m <=? n)%nat.
Proof. unfold Js.le. apply ge_of_nat. Qed.

(** [Math.min(x, 10)] is at most 10 whenever [x] is a number other than NaN. *)
Lemma Math_min_le_r (x b : Js.number) :
  x <> Js.NaN -> Js.ge b b = true -> Js.le (Js.Math_min x b) b = true.
Proof.
  unfold Js.le. intros Hx Hb.
  destruct x as [| | |p]; try congruence; destruct b as [| | |q];
    simpl in *; try discriminate; try reflexivity; try exact Hb.
  destruct (Qle_bool p q) eqn:E; simpl; [exact E | exact Hb].
Qed.

Lemma Math_min_le_l (x b : Js.number) :
  x <> Js.NaN -> b <> Js.NaN -> Js.le (Js.Math_min x b) x = true.
Proof.
  unfold Js.le. intros Hx Hb.
  destruct x as [| | |p]; try congruence; destruct b as [| | |q];
    try congruence; simpl; try reflexivity.
  - apply Qle_bool_iff. apply Qle_refl.
  - destruct (Qle_bool p q) eqn:E; simpl.
    + apply Qle_bool_iff. apply Qle_refl.
    + apply Qle_bool_iff.
      destruct (Qlt_le_dec q p) as [Hlt | Hle].
      * apply Qlt_le_weak. exact Hlt.
      * apply Qle_bool_iff in Hle. congruence.
Qed.

(** [limit || 5] is never NaN: NaN is falsy. *)
Lemma or_number_not_NaN (limit : option Js.number) (d : Js.number) :
  d <> Js.NaN -> Runtime.or_number limit d <> Js.NaN.
Proof.
  intros Hd. destruct limit as [[| | |q]|]; simpl; try congruence.
  destruct (negb (Qeq_bool q (inject_Z 0))); congruence.
Qed.

(** A number below zero is truthy. *)
Lemma negative_truthy (n : Js.number) :
  Scan.lt n (Js.of_nat 0) = true -> Js.truthy (Js.VNumber n) = true.
Proof.
  destruct n as [| | |q]; simpl; try discriminate; try reflexivity.
  intros H. apply negb_true_iff in H. apply negb_true_iff.
  apply not_true_is_false. intro E. apply Qeq_bool_iff in E.
  assert (Hle : Qle_bool (inject_Z 0) q = true).
  { apply Qle_bool_iff. rewrite E. apply Qle_refl. }
  unfold Js.of_nat, Js.of_Z in H. simpl in H. congruence.
Qed.

End NumberFacts.

(* ------------------------------------------------------------------ *)
(** ** The scan *)

Module ScanFacts.
Import Runtime Scan.
#[local] Arguments Js.ge : simpl never.
#[local] Arguments Js.of_nat : simpl never.

(** The callback stops at [i >= limit], and otherwise pushes the record of
    the block when there is one. *)
Lemma callback_extract (limit : Js.number) (i : nat) (element : Dom.node)
    (results : list SearchResult) :
  Extractor.callback limit i element results =
  if Js.ge (Js.of_nat i) limit then (results, false)
  else (results ++ option_list (extract element), true).
Proof.
  unfold Extractor.callback, extract.
  destruct (Js.ge (Js.of_nat i) limit); [reflexivity|].
  cbv zeta.
  destruct (Cheerio.attr (Cheerio.find element "a") "href") as [href|];
    [|simpl; now rewrite app_nil_r].
  match goal with |- context [if ?c then _ else _] => destruct c end;
    simpl; [reflexivity | now rewrite app_nil_r].
Qed.

Lemma each_from_callback (limit : Js.number) (blocks : list Dom.node) :
  forall (i : nat) (results : list SearchResult),
    Cheerio.each_from i blocks (Extractor.callback limit) results =
    results ++ collect (visited i limit blocks).
Proof.
  induction blocks as [|element rest IH]; intros i results; simpl.
  - now rewrite app_nil_r.
  - rewrite callback_extract.
    destruct (Js.ge (Js.of_nat i) limit).
    + simpl. now rewrite app_nil_r.
    + rewrite IH. simpl. unfold collect. now rewrite <- app_assoc.
Qed.

Lemma each_callback (limit : Js.number) (blocks : list Dom.node)
    (results : list SearchResult) :
  Cheerio.each blocks (Extractor.callback limit) results =
  results ++ collect (visited 0 limit blocks).
Proof. apply each_from_callback. Qed.

(** With a whole number as limit the loop reaches the first [limit] blocks. *)
Lemma visited_of_nat (n : nat) (blocks : list Dom.node) :
  forall i, visited i (Js.of_nat n) blocks = firstn (n - i) blocks.
Proof.
  induction blocks as [|element rest IH]; intros i; simpl.
  - now rewrite firstn_nil.
  - rewrite NumberFacts.ge_of_nat.
    destruct (Nat.leb_spec n i) as [Hle | Hlt].
    + replace (n - i)%nat with 0%nat by lia. reflexivity.
    + rewrite IH. replace (n - i)%nat with (S (n - S i)) by lia. reflexivity.
Qed.

(** The loop reaches at most [n - i] blocks when [limit <= n]. *)
Lemma visited_length (limit : Js.number) (n : nat) (blocks : list Dom.node) :
  Js.le limit (Js.of_nat n) = true ->
  forall i, (List.length (visited i limit blocks) <= n - i)%nat.
Proof.
  intros Hle. induction blocks as [|element rest IH]; intros i; simpl.
  - lia.
  - destruct (Js.ge (Js.of_nat i) limit) eqn:E; simpl; [lia|].
    assert (Hlt : (i < n)%nat).
    { destruct (Nat.ltb_spec i n) as [H | H]; [exact H|].
      assert (Hge : Js.ge (Js.of_nat i) (Js.of_nat n) = true).
      { rewrite NumberFacts.ge_of_nat. now apply Nat.leb_le. }
      rewrite (NumberFacts.ge_trans _ _ _ Hge Hle) in E. discriminate. }
    specialize (IH (S i)). lia.
Qed.

(** Nothing is reached when the limit is below zero. *)
Lemma visited_negative (limit : Js.number) (blocks : list Dom.node) :
  lt limit (Js.of_nat 0) = true -> forall i, visited i limit blocks = [].
Proof.
  intros Hneg i. destruct blocks as [|element rest]; simpl; [reflexivity|].
  assert (Hle : Js.ge (Js.of_nat 0) limit = true).
  { unfold lt, Js.ge, Js.of_nat, Js.of_Z in *.
    destruct limit as [| | |q]; simpl in *; try discriminate; try reflexivity.
    apply negb_true_iff in Hneg.
    apply Qle_bool_iff.
    destruct (Qlt_le_dec q (inject_Z 0)) as [H | H].
    - now apply Qlt_le_weak.
    - apply Qle_bool_iff in H. congruence. }
  assert (Hi : Js.ge (Js.of_nat i) (Js.of_nat 0) = true).
  { rewrite NumberFacts.ge_of_nat. reflexivity. }
  now rewrite (NumberFacts.ge_trans _ _ _ Hi Hle).
Qed.

Lemma collect_length (blocks : list Dom.node) :
  (List.length (collect blocks) <= List.length blocks)%nat.
Proof.
  induction blocks as [|element rest IH]; simpl; [lia|].
  rewrite length_app. destruct (extract element); simpl; lia.
Qed.

(** When every block of the list is well formed, each yields a record. *)
Lemma collect_all (blocks : list Dom.node) :
  (forall element, In element blocks -> wellFormed element = true) ->
  List.length (collect blocks) = List.length blocks.
Proof.
  induction blocks as [|element rest IH]; intros Hall; simpl; [reflexivity|].
  rewrite length_app, IH by (intros e He; apply Hall; now right).
  specialize (Hall element (or_introl eq_refl)). unfold wellFormed in Hall.
  destruct (extract element); [reflexivity | discriminate].
Qed.

Lemma collect_In (blocks : list Dom.node) (r : SearchResult) :
  In r (collect blocks) ->
  exists element, In element blocks /\ extract element = Some r.
Proof.
  unfold collect. intros H. apply in_flat_map in H.
  destruct H as [element [Hin Hr]]. exists element. split; [exact Hin|].
  destruct (extract element) as [r'|]; simpl in Hr; [|contradiction].
  destruct Hr as [<- | []]. reflexivity.
Qed.

Lemma visited_In (limit : Js.number) (blocks : list Dom.node) (element : Dom.node) :
  forall i, In element (visited i limit blocks) -> In element blocks.
Proof.
  induction blocks as [|b rest IH]; intros i; simpl; [tauto|].
  destruct (Js.ge (Js.of_nat i) limit); simpl; [tauto|].
  intros [H | H]; [now left | right; eapply IH; eassumption].
Qed.

Lemma Subseq_nil_l {A : Type} (l : list A) : Subseq [] l.
Proof. induction l; constructor; assumption. Qed.

(** The records come from a selection of the blocks that keeps their
    order, one record per selected block. *)
Lemma collect_visited_order (limit : Js.number) (blocks : list Dom.node) :
  forall i, exists chosen,
    Subseq chosen blocks /\
    Forall2 (fun element r => extract element = Some r) chosen
            (collect (visited i limit blocks)).
Proof.
  induction blocks as [|element rest IH]; intros i; simpl.
  - exists []. split; constructor.
  - destruct (Js.ge (Js.of_nat i) limit).
    + exists []. split; [apply Subseq_nil_l | constructor].
    + destruct (IH (S i)) as [chosen [Hsub Hall]]. simpl.
      destruct (extract element) as [r|] eqn:E; simpl.
      * exists (element :: chosen). split; [now constructor|].
        constructor; assumption.
      * exists chosen. split; [now constructor | assumption].
Qed.

(** What a record accepted from a block consists of. *)
Lemma extract_Some (element : Dom.node) (r : SearchResult) :
  extract element = Some r ->
  Cheerio.find element "h3" <> [] /\
  Cheerio.find element "a" <> [] /\
  Cheerio.attr (Cheerio.find element "a") "href" = Some (url r) /\
  String.prefix "http" (url r) = true /\
  title r = Cheerio.text (Cheerio.find element "h3") /\
  description r = Cheerio.text (Cheerio.find element ".VwiC3b").
Proof.
  unfold extract. cbv zeta.
  destruct (Cheerio.attr (Cheerio.find element "a") "href") as [href|]; [|discriminate].
  destruct (Cheerio.find element "h3") as [|h hs] eqn:Eh; [discriminate|].
  destruct (Cheerio.find element "a") as [|a l] eqn:Ea; [discriminate|].
  simpl. destruct (String.prefix "http" href) eqn:Ep; [|discriminate].
  intros H. injection H as <-. simpl.
  repeat split; try congruence.
  unfold or_string. now destruct (String.eqb _ "") eqn:E; [apply String.eqb_eq in E|].
Qed.

(** A block without heading, without anchor, or whose first anchor has no
    [href] starting with [http], yields nothing. *)
Lemma extract_None (element : Dom.node) :
  Rejected element ->
  extract element = None.
Proof.
  unfold extract, Rejected. cbv zeta. intros H.
  destruct (Cheerio.attr (Cheerio.find element "a") "href") as [href|] eqn:E;
    [|reflexivity].
  destruct H as [H | [H | H]].
  - rewrite H. reflexivity.
  - rewrite H in E. discriminate.
  - rewrite (H href) by (rewrite <- E; reflexivity).
    now rewrite andb_false_r.
Qed.

End ScanFacts.

(* ------------------------------------------------------------------ *)
(** ** The two [performSearch] functions and the handler, run *)

Module RunFacts.
Import Runtime Scan.

(** First variant: one request, then the records of the blocks reached. *)
Lemma performSearch_run (net : network) (q : string) (limit : Js.number) (t : trace) :
  Variant1.performSearch net q limit t =
  match net endpoint q with
  | Some response =>
      (Returned (collect (visited 0 limit (Cheerio.select (data response) "div.g"))),
       t ++ [HttpGet endpoint q userAgent])
  | None => (Thrown AxiosError, t ++ [HttpGet endpoint q userAgent])
  end.
Proof.
  unfold Variant1.performSearch. run.
  destruct (net endpoint q) as [response|]; [|reflexivity].
  now rewrite ScanFacts.each_callback.
Qed.

(** Second variant: a debug line, one request, then the placeholder followed
    by the records of the blocks reached. *)
Lemma performSearch2_run (net : network) (q : string) (limit : Js.number) (t : trace) :
  Variant2.performSearch net q limit t =
  match net endpoint q with
  | Some response =>
      (Returned (Variant2.placeholder ::
                 collect (visited 0 limit (Cheerio.select (data response) "div.g"))),
       t ++ [ConsoleDebug q limit; HttpGet endpoint q userAgent])
  | None => (Thrown AxiosError, t ++ [ConsoleDebug q limit; HttpGet endpoint q userAgent])
  end.
Proof.
  unfold Variant2.performSearch. run.
  rewrite <- app_assoc. simpl.
  destruct (net endpoint q) as [response|]; [|reflexivity].
  now rewrite ScanFacts.each_callback.
Qed.

(** The guard accepts exactly the structures the specification describes. *)
Lemma isValidSearchArgs_iff (arguments : Js.value) :
  Variant1.isValidSearchArgs arguments = true <-> SearchStructure arguments.
Proof.
  unfold Variant1.isValidSearchArgs, SearchStructure. split.
  - intros H. apply andb_prop in H as [H Hlimit].
    apply andb_prop in H as [H Hquery]. apply andb_prop in H as [Hobj Hnull].
    destruct arguments as [| | | | | |props]; simpl in *; try discriminate.
    destruct (Js.lookup "query" props) as [| | | |q| |] eqn:Eq; simpl in *;
      try discriminate.
    exists props, q. split; [reflexivity|]. split; [exact Eq|].
    destruct (Js.lookup "limit" props) as [| | |n| | |]; simpl in *;
      try discriminate; [now left | right; now exists n].
  - intros [props [q [-> [Hq Hl]]]]. simpl. rewrite Hq. simpl.
    destruct Hl as [-> | [n ->]]; reflexivity.
Qed.

(** On accepted arguments the narrowed view exists, and conversely. *)
Lemma asSearchArgs_valid (arguments : Js.value) :
  Variant1.isValidSearchArgs arguments = true ->
  exists args, Variant1.asSearchArgs arguments = Some args.
Proof.
  intros H. apply isValidSearchArgs_iff in H.
  destruct H as [props [q [-> [Hq Hl]]]]. unfold Variant1.asSearchArgs. simpl.
  rewrite Hq. destruct Hl as [-> | [n ->]]; eexists; reflexivity.
Qed.

(** The handler on a call of [search] with accepted arguments. *)
Lemma callTool_search (net : network) (arguments : Js.value) (args : SearchArgs)
    (t : trace) :
  Variant1.isValidSearchArgs arguments = true ->
  Variant1.asSearchArgs arguments = Some args ->
  Variant1.callTool net "search" arguments t =
  match net endpoint (query args) with
  | Some response =>
      (Returned
         (envelope
            (collect (visited 0 (Variant1.effectiveLimit (limit args))
                        (Cheerio.select (data response) "div.g")))),
       t ++ [HttpGet endpoint (query args) userAgent])
  | None => (Thrown AxiosError, t ++ [HttpGet endpoint (query args) userAgent])
  end.
Proof.
  intros Hvalid Hargs. unfold Variant1.callTool.
  rewrite Hvalid, Hargs. simpl. cbv zeta. unfold bind.
  rewrite performSearch_run.
  destruct (net endpoint (query args)); reflexivity.
Qed.

(** A rejected call leaves the trace as it was. *)
Lemma callTool_rejected (net : network) (name : string) (arguments : Js.value)
    (t : trace) :
  Variant1.isValidSearchArgs arguments = false ->
  Variant1.callTool net name arguments t =
  if name =? "search"
  then (Thrown (McpError InvalidParams "Invalid search arguments"), t)
  else (Thrown (McpError MethodNotFound ("Unknown tool: " ++ name)), t).
Proof.
  intros H. unfold Variant1.callTool. rewrite H.
  destruct (name =? "search"); reflexivity.
Qed.

End RunFacts.

(* ------------------------------------------------------------------ *)
(** ** Properties of the specification *)

Module Claims.
Import Runtime Scan Fixtures.

(** *** The limit and the length of the result *)

(** C1, as stated, fails: with [limit = 0.5] the effective limit is 0.5
    ([0.5 || 5] is 0.5, [Math.min(0.5, 10)] is 0.5), the loop visits the
    block of index 0 since [0 >= 0.5] is false, and one record comes back;
    1 is not at most 0.5. *)
Lemma search_length_exceeds_fractional_limit :
  Variant1.callTool (serve (page [rust; book])) "search"
    (args "rust" (Js.VNumber half)) [] =
    (Returned (envelope [rustRecord]), [request "rust"]) /\
  Variant1.effectiveLimit (Some half) = half /\
  Js.le (Js.of_nat (List.length [rustRecord])) half = false.
Proof. repeat split; vm_compute; reflexivity. Qed.

(** C1 (amended).  In the first variant the effective limit
    [Math.min(limit || 5, 10)] is at most 10 whatever the caller asked
    for; a call of [search] that returns carries a result whose length is at
    most 10 and at most every whole number not below the effective limit
    (so at most the effective limit when that is a whole number, and 0 when
    it is negative).  In the second variant the tool callback passes
    [limit || 5] to [performSearch] as it is (the debug line shows the
    value), and that value is at most 10 for every limit the declared
    schema accepts. *)
Theorem search_length_within_effective_limit :
  (forall requested, Js.le (Variant1.effectiveLimit requested) (Js.of_nat 10) = true) /\
  (forall net arguments t r t',
      Variant1.callTool net "search" arguments t = (Returned r, t') ->
      exists args results,
        Variant1.asSearchArgs arguments = Some args /\
        r = envelope results /\
        (List.length results <= 10)%nat /\
        (forall n, Js.le (Variant1.effectiveLimit (limit args)) (Js.of_nat n) = true ->
                   (List.length results <= n)%nat)) /\
  (forall net args t, Variant2.limitSchema (limit args) = true ->
      snd (Variant2.searchTool net args t) =
        t ++ [ConsoleDebug (query args) (or_number (limit args) (Js.of_nat 5));
              request (query args)] /\
      Js.le (or_number (limit args) (Js.of_nat 5)) (Js.of_nat 10) = true).
Proof.
  assert (Hclamp : forall requested,
             Js.le (Variant1.effectiveLimit requested) (Js.of_nat 10) = true).
  { intros requested. unfold Variant1.effectiveLimit.
    apply NumberFacts.Math_min_le_r; [|reflexivity].
    apply NumberFacts.or_number_not_NaN. discriminate. }
  split; [exact Hclamp|]. split.
  - intros net arguments t r t' Hrun.
    destruct (Variant1.isValidSearchArgs arguments) eqn:Hvalid.
    + destruct (RunFacts.asSearchArgs_valid _ Hvalid) as [args Hargs].
      rewrite (RunFacts.callTool_search net _ _ t Hvalid Hargs) in Hrun.
      destruct (net endpoint (query args)) as [response|]; [|discriminate].
      injection Hrun as <- <-.
      eexists args, _. split; [exact Hargs|]. split; [reflexivity|].
      assert (Hn : forall n,
                 Js.le (Variant1.effectiveLimit (limit args)) (Js.of_nat n) = true ->
                 (List.length
                    (collect (visited 0 (Variant1.effectiveLimit (limit args))
                                (Cheerio.select (data response) "div.g"))) <= n)%nat).
      { intros n Hle.
        etransitivity; [apply ScanFacts.collect_length|].
        pose proof (ScanFacts.visited_length _ n
                      (Cheerio.select (data response) "div.g") Hle 0). lia. }
      split; [apply Hn, Hclamp | exact Hn].
    + rewrite RunFacts.callTool_rejected in Hrun by exact Hvalid.
      simpl in Hrun. discriminate.
  - intros net args t Hschema. split.
    { unfold Variant2.searchTool, bind. rewrite RunFacts.performSearch2_run.
      destruct (net endpoint (query args)); reflexivity. }
    destruct (limit args) as [n|]; [|reflexivity].
    simpl in Hschema. apply andb_prop in Hschema as [Hge Hle].
    assert (Htruthy : Js.truthy (Js.VNumber n) = true).
    { destruct n as [| | |q]; simpl in *; try discriminate; try reflexivity.
      apply negb_true_iff. apply not_true_is_false. intro E.
      apply Qeq_bool_iff in E. apply Qle_bool_iff in Hge.
      rewrite E in Hge. vm_compute in Hge. now apply Hge. }
    unfold or_number. rewrite Htruthy. exact Hle.
Qed.

Lemma search_length_within_effective_limit_witness :
  exists args results,
    Variant1.asSearchArgs (Fixtures.args "rust" (Js.VNumber (Js.of_nat 1))) = Some args /\
    envelope [rustRecord] = envelope results /\
    (List.length results <= 10)%nat /\
    (forall n, Js.le (Variant1.effectiveLimit (limit args)) (Js.of_nat n) = true ->
               (List.length results <= n)%nat).
Proof.
  apply (proj1 (proj2 search_length_within_effective_limit)
           (serve (page [rust; book])) (Fixtures.args "rust" (Js.VNumber (Js.of_nat 1)))
           [] (envelope [rustRecord]) [request "rust"]).
  vm_compute. reflexivity.
Defined.

(** *** How many records, and from which blocks *)

(** C2, as stated, fails: the page has two well-formed blocks after a block
    without anchor, and the limit is 1.  The loop stops at index 1, having
    seen only the block without anchor: no record, where the claim expects
    the record of the first well-formed block. *)
Lemma malformed_block_uses_up_the_limit :
  List.length (filter wellFormed
                 (Cheerio.select (page [blockNoAnchor; rust; book]) "div.g")) = 2%nat /\
  Variant1.performSearch (serve (page [blockNoAnchor; rust; book])) "rust"
    (Js.of_nat 1) [] = (Returned [], [request "rust"]) /\
  firstn 1 (collect (Cheerio.select (page [blockNoAnchor; rust; book]) "div.g")) =
    [rustRecord].
Proof. repeat split; vm_compute; reflexivity. Qed.

(** C2 (amended).  With a whole number [limit], extraction looks at the
    first [limit] candidate blocks of the page, in document order, and
    returns the records of the well-formed ones among them.  It returns
    exactly [limit] records when the page has at least [limit] candidate
    blocks and the first [limit] of them are well formed. *)
Theorem extraction_scans_first_limit_blocks
    (net : network) (q : string) (limit : nat) (t : trace) (response : AxiosResponse) :
  net endpoint q = Some response ->
  let blocks := Cheerio.select (data response) "div.g" in
  Variant1.performSearch net q (Js.of_nat limit) t =
    (Returned (collect (firstn limit blocks)), t ++ [request q]) /\
  ((limit <= List.length blocks)%nat ->
   forallb wellFormed (firstn limit blocks) = true ->
   List.length (collect (firstn limit blocks)) = limit).
Proof.
  intros Hnet blocks. split.
  - rewrite RunFacts.performSearch_run, Hnet.
    rewrite ScanFacts.visited_of_nat, Nat.sub_0_r. reflexivity.
  - intros Hlen Hall. rewrite ScanFacts.collect_all.
    + apply firstn_length_le. exact Hlen.
    + apply forallb_forall. exact Hall.
Qed.

Lemma extraction_scans_first_limit_blocks_witness :
  Variant1.performSearch (serve (page [rust; book; blockNoAnchor])) "rust"
    (Js.of_nat 2) [] = (Returned [rustRecord; bookRecord], [request "rust"]) /\
  List.length [rustRecord; bookRecord] = 2%nat.
Proof.
  destruct (extraction_scans_first_limit_blocks
              (serve (page [rust; book; blockNoAnchor])) "rust" 2 []
              {| data := page [rust; book; blockNoAnchor] |} eq_refl) as [Hrun Hcount].
  split.
  - exact Hrun.
  - apply Hcount; [vm_compute; lia | reflexivity].
Defined.

(** *** What a record holds *)

(** C3, as stated, fails: a block whose heading element is empty passes the
    test ([titleElement.length] counts elements, not characters) and its
    record has the empty string as title. *)
Lemma empty_heading_gives_empty_title :
  Variant1.performSearch (serve (page [blockEmptyHeading])) "rust" (Js.of_nat 5) [] =
    (Returned [ {| title := ""; url := "https://example.org/"; description := "" |} ],
     [request "rust"]).
Proof. vm_compute. reflexivity. Qed.

(** C3 (amended).  Every record returned has a [url] that starts with
    [http] and is made of the parts of one candidate block that has a
    heading element and an anchor: the [href] of its first anchor, the text
    of its headings (which may be empty) and the text of its snippet.  A
    block that fails a condition of the test leaves the results as they
    were. *)
Theorem records_come_whole_from_accepted_blocks
    (net : network) (q : string) (limit : Js.number) (t t' : trace)
    (results : list SearchResult) :
  Variant1.performSearch net q limit t = (Returned results, t') ->
  exists response,
    net endpoint q = Some response /\
    (forall r, In r results ->
       String.prefix "http" (url r) = true /\ FromBlock (data response) r) /\
    (forall i element acc,
       Rejected element ->
       Extractor.callback limit i element acc = (acc, negb (Js.ge (Js.of_nat i) limit))).
Proof.
  rewrite RunFacts.performSearch_run.
  destruct (net endpoint q) as [response|]; [|discriminate].
  intros H. injection H as <- <-. exists response.
  split; [reflexivity|]. split.
  - intros r Hr. apply ScanFacts.collect_In in Hr as [element [Hin Hex]].
    apply ScanFacts.visited_In in Hin.
    destruct (ScanFacts.extract_Some _ _ Hex) as (Hh & Ha & Hhref & Hp & Ht & Hd).
    split; [exact Hp|]. exists element. tauto.
  - intros i element acc Hrej. rewrite ScanFacts.callback_extract.
    rewrite (ScanFacts.extract_None _ Hrej). unfold option_list.
    destruct (Js.ge (Js.of_nat i) limit); simpl; [reflexivity | now rewrite app_nil_r].
Qed.

Lemma records_come_whole_from_accepted_blocks_witness :
  exists response,
    serve (page [relative; rust]) endpoint "rust" = Some response /\
    (forall r, In r [rustRecord] ->
       String.prefix "http" (url r) = true /\ FromBlock (data response) r) /\
    (forall i element acc,
       Rejected element ->
       Extractor.callback (Js.of_nat 5) i element acc =
       (acc, negb (Js.ge (Js.of_nat i) (Js.of_nat 5)))).
Proof.
  apply (records_come_whole_from_accepted_blocks
           (serve (page [relative; rust])) "rust" (Js.of_nat 5) [] [request "rust"]).
  vm_compute. reflexivity.
Defined.

(** *** Order and determinism *)

(** C4.  The records of the blocks are those of a selection of the
    candidate blocks that keeps the order of the page, one record per
    selected block, in that order; the second variant returns the same
    records after its first record.  The result depends on the page and
    the limit alone: two runs that are served the same page return the same
    list, whatever the query, the upstream and the trace so far. *)
Theorem results_follow_document_order
    (net1 net2 : network) (q1 q2 : string) (limit : Js.number) (t1 t2 : trace)
    (response : AxiosResponse) :
  net1 endpoint q1 = Some response ->
  net2 endpoint q2 = Some response ->
  exists results chosen,
    Variant1.performSearch net1 q1 limit t1 = (Returned results, t1 ++ [request q1]) /\
    Variant1.performSearch net2 q2 limit t2 = (Returned results, t2 ++ [request q2]) /\
    Variant2.performSearch net1 q1 limit t1 =
      (Returned (Variant2.placeholder :: results), t1 ++ [ConsoleDebug q1 limit; request q1]) /\
    Variant2.performSearch net2 q2 limit t2 =
      (Returned (Variant2.placeholder :: results), t2 ++ [ConsoleDebug q2 limit; request q2]) /\
    Subseq chosen (Cheerio.select (data response) "div.g") /\
    Forall2 (fun element r => extract element = Some r) chosen results.
Proof.
  intros H1 H2.
  destruct (ScanFacts.collect_visited_order limit
              (Cheerio.select (data response) "div.g") 0) as [chosen [Hsub Hall]].
  eexists _, chosen.
  rewrite !RunFacts.performSearch_run, !RunFacts.performSearch2_run, H1, H2.
  repeat split; try reflexivity; assumption.
Qed.

Lemma results_follow_document_order_witness :
  exists results chosen,
    Variant1.performSearch (serve (page [rust; blockNoAnchor; book])) "rust"
      (Js.of_nat 3) [] = (Returned results, [] ++ [request "rust"]) /\
    Variant1.performSearch (serve (page [rust; blockNoAnchor; book])) "the book"
      (Js.of_nat 3) [request "rust"] = (Returned results, [request "rust"] ++ [request "the book"]) /\
    Variant2.performSearch (serve (page [rust; blockNoAnchor; book])) "rust"
      (Js.of_nat 3) [] =
      (Returned (Variant2.placeholder :: results),
       [] ++ [ConsoleDebug "rust" (Js.of_nat 3); request "rust"]) /\
    Variant2.performSearch (serve (page [rust; blockNoAnchor; book])) "the book"
      (Js.of_nat 3) [request "rust"] =
      (Returned (Variant2.placeholder :: results),
       [request "rust"] ++ [ConsoleDebug "the book" (Js.of_nat 3); request "the book"]) /\
    Subseq chosen (Cheerio.select (page [rust; blockNoAnchor; book]) "div.g") /\
    Forall2 (fun element r => extract element = Some r) chosen results.
Proof.
  apply (results_follow_document_order
           (serve (page [rust; blockNoAnchor; book]))
           (serve (page [rust; blockNoAnchor; book]))
           "rust" "the book" (Js.of_nat 3) [] [request "rust"]
           {| data := page [rust; blockNoAnchor; book] |}); reflexivity.
Defined.

(** *** Pages without candidate blocks *)

(** C5.  On a page without candidate blocks the first variant returns the
    empty list; the second variant returns one record, the one it pushes
    before the scan, where the property demands none. *)
Theorem page_without_blocks
    (net : network) (q : string) (limit : Js.number) (t : trace)
    (response : AxiosResponse) :
  net endpoint q = Some response ->
  Cheerio.select (data response) "div.g" = [] ->
  Variant1.performSearch net q limit t = (Returned [], t ++ [request q]) /\
  Variant2.performSearch net q limit t =
    (Returned [Variant2.placeholder], t ++ [ConsoleDebug q limit; request q]).
Proof.
  intros Hnet Hnone.
  rewrite RunFacts.performSearch_run, RunFacts.performSearch2_run, Hnet, Hnone.
  split; reflexivity.
Qed.

Lemma page_without_blocks_witness :
  Variant1.performSearch (serve []) "rust" (Js.of_nat 5) [] =
    (Returned [], [] ++ [request "rust"]) /\
  Variant2.performSearch (serve []) "rust" (Js.of_nat 5) [] =
    (Returned [Variant2.placeholder],
     [] ++ [ConsoleDebug "rust" (Js.of_nat 5); request "rust"]).
Proof.
  apply (page_without_blocks (serve []) "rust" (Js.of_nat 5) [] {| data := [] |});
    reflexivity.
Defined.

(** *** Dispatch: rejected calls *)

(** C6, as stated, fails: the name of the tool is tested before the
    arguments, so a call of an unknown tool with arguments that lack
    [query] fails with [MethodNotFound], not [InvalidParams]. *)
Lemma unknown_tool_with_invalid_arguments :
  ~ SearchStructure (Js.VObject []) /\
  Variant1.callTool offline "add" (Js.VObject []) [] =
    (Thrown (McpError MethodNotFound "Unknown tool: add"), []).
Proof.
  split; [|reflexivity].
  intro H. apply RunFacts.isValidSearchArgs_iff in H. discriminate H.
Qed.

(** C6 (amended).  A call of the tool [search] whose arguments are not a
    structure with a string [query] and a [limit] that is absent or a
    number fails with [InvalidParams]; and under whatever name such
    arguments arrive, the call leaves the trace as it was: no request is
    sent. *)
Theorem invalid_arguments_fail_before_any_request
    (net : network) (arguments : Js.value) (t : trace) :
  ~ SearchStructure arguments ->
  Variant1.callTool net "search" arguments t =
    (Thrown (McpError InvalidParams "Invalid search arguments"), t) /\
  (forall name,
      snd (Variant1.callTool net name arguments t) = t /\
      fetches (snd (Variant1.callTool net name arguments t)) = fetches t).
Proof.
  intros Hbad.
  assert (Hinvalid : Variant1.isValidSearchArgs arguments = false).
  { apply not_true_is_false. intro H. apply Hbad.
    now apply RunFacts.isValidSearchArgs_iff. }
  split.
  - now rewrite RunFacts.callTool_rejected.
  - intros name. rewrite RunFacts.callTool_rejected by exact Hinvalid.
    destruct (name =? "search"); split; reflexivity.
Qed.

Lemma invalid_arguments_fail_before_any_request_witness :
  Variant1.callTool (serve (page [rust])) "search"
    (Js.VObject [("limit", Js.VNumber (Js.of_nat 3))]) [] =
    (Thrown (McpError InvalidParams "Invalid search arguments"), []) /\
  (forall name,
      snd (Variant1.callTool (serve (page [rust])) name
             (Js.VObject [("limit", Js.VNumber (Js.of_nat 3))]) []) = [] /\
      fetches (snd (Variant1.callTool (serve (page [rust])) name
                      (Js.VObject [("limit", Js.VNumber (Js.of_nat 3))]) [])) = fetches []).
Proof.
  apply (invalid_arguments_fail_before_any_request
           (serve (page [rust])) (Js.VObject [("limit", Js.VNumber (Js.of_nat 3))]) []).
  intro H. apply RunFacts.isValidSearchArgs_iff in H. discriminate H.
Defined.

(** C7.  A call whose name is not [search] fails with [MethodNotFound] and
    leaves the trace as it was.  Since every run of [performSearch] adds a
    request to the trace, [performSearch] has not run. *)
Theorem unknown_tool_is_method_not_found
    (net : network) (name : string) (arguments : Js.value) (t : trace) :
  name <> "search" ->
  Variant1.callTool net name arguments t =
    (Thrown (McpError MethodNotFound ("Unknown tool: " ++ name)), t) /\
  (forall q limit t0, snd (Variant1.performSearch net q limit t0) = t0 ++ [request q]).
Proof.
  intros Hname. split.
  - unfold Variant1.callTool.
    destruct (String.eqb_spec name "search") as [E | _]; [contradiction | reflexivity].
  - intros q limit t0. rewrite RunFacts.performSearch_run.
    destruct (net endpoint q); reflexivity.
Qed.

Lemma unknown_tool_is_method_not_found_witness :
  Variant1.callTool (serve (page [rust])) "add" (args "rust" (Js.VNumber (Js.of_nat 3))) [] =
    (Thrown (McpError MethodNotFound ("Unknown tool: " ++ "add")), []) /\
  (forall q limit t0,
      snd (Variant1.performSearch (serve (page [rust])) q limit t0) = t0 ++ [request q]).
Proof.
  apply (unknown_tool_is_method_not_found
           (serve (page [rust])) "add" (args "rust" (Js.VNumber (Js.of_nat 3))) []).
  discriminate.
Defined.

(** *** The empty query *)

(** C8, as stated, fails: the guard asks only that [query] be a string; the
    empty string passes it and the request goes out with [q] empty. *)
Lemma empty_query_reaches_the_fetcher :
  Variant1.isValidSearchArgs (Js.VObject [("query", Js.VString "")]) = true /\
  Variant1.callTool (serve (page [rust])) "search"
    (Js.VObject [("query", Js.VString "")]) [] =
    (Returned (envelope [rustRecord]), [request ""]) /\
  fetches [request ""] = 1%nat.
Proof. repeat split; vm_compute; reflexivity. Qed.

(** C8 (amended).  A request whose [query] is the empty string, in
    arguments of the valid structure, passes validation, and the handler
    sends exactly one request, with the empty query. *)
Theorem empty_query_is_accepted
    (net : network) (arguments : Js.value) (t : trace) :
  SearchStructure arguments ->
  Js.get arguments "query" = Js.VString "" ->
  Variant1.isValidSearchArgs arguments = true /\
  snd (Variant1.callTool net "search" arguments t) = t ++ [request ""] /\
  fetches (snd (Variant1.callTool net "search" arguments t)) = S (fetches t).
Proof.
  intros Hstruct Hquery.
  assert (Hvalid : Variant1.isValidSearchArgs arguments = true)
    by now apply RunFacts.isValidSearchArgs_iff.
  destruct (RunFacts.asSearchArgs_valid _ Hvalid) as [a Ha].
  assert (Hq : query a = "").
  { unfold Variant1.asSearchArgs in Ha. rewrite Hquery in Ha.
    destruct (Js.get arguments "limit"); try discriminate;
      injection Ha as <-; reflexivity. }
  assert (Hrun : snd (Variant1.callTool net "search" arguments t) = t ++ [request ""]).
  { rewrite (RunFacts.callTool_search net _ _ t Hvalid Ha), Hq.
    destruct (net endpoint ""); reflexivity. }
  split; [exact Hvalid|]. split; [exact Hrun|].
  rewrite Hrun. unfold fetches. rewrite filter_app, length_app. simpl. lia.
Qed.

Lemma empty_query_is_accepted_witness :
  Variant1.isValidSearchArgs (args "" (Js.VNumber (Js.of_nat 3))) = true /\
  snd (Variant1.callTool offline "search" (args "" (Js.VNumber (Js.of_nat 3))) []) =
    [] ++ [request ""] /\
  fetches (snd (Variant1.callTool offline "search" (args "" (Js.VNumber (Js.of_nat 3))) [])) =
    S (fetches []).
Proof.
  apply (empty_query_is_accepted offline (args "" (Js.VNumber (Js.of_nat 3))) []).
  - exists [("query", Js.VString ""); ("limit", Js.VNumber (Js.of_nat 3))], "".
    split; [reflexivity|]. split; [reflexivity|].
    right. exists (Js.of_nat 3). reflexivity.
  - reflexivity.
Defined.

(** *** The record the second variant pushes first *)

(** C9.  Whenever the page arrives, the second [performSearch] returns a
    list whose first element is the fixed record, followed by what the scan
    adds; the list is never empty. *)
Theorem second_variant_returns_placeholder_first
    (net : network) (q : string) (limit : Js.number) (t : trace)
    (response : AxiosResponse) :
  net endpoint q = Some response ->
  exists rest,
    Variant2.performSearch net q limit t =
      (Returned (Variant2.placeholder :: rest), t ++ [ConsoleDebug q limit; request q]) /\
    rest = collect (visited 0 limit (Cheerio.select (data response) "div.g")) /\
    Variant2.placeholder =
      {| title := "titleElement";
         url := "http://localhost";
         description := "snippetElement.text()" |}.
Proof.
  intros Hnet. eexists. rewrite RunFacts.performSearch2_run, Hnet.
  repeat split; reflexivity.
Qed.

Lemma second_variant_returns_placeholder_first_witness :
  exists rest,
    Variant2.performSearch (serve []) "rust" (Js.of_nat 5) [] =
      (Returned (Variant2.placeholder :: rest),
       [] ++ [ConsoleDebug "rust" (Js.of_nat 5); request "rust"]) /\
    rest = collect (visited 0 (Js.of_nat 5) (Cheerio.select [] "div.g")) /\
    Variant2.placeholder =
      {| title := "titleElement";
         url := "http://localhost";
         description := "snippetElement.text()" |}.
Proof.
  apply (second_variant_returns_placeholder_first
           (serve []) "rust" (Js.of_nat 5) [] {| data := [] |}).
  reflexivity.
Defined.

(** *** Limits of zero and below *)

(** C10.  In the first variant a limit of 0 passes the guard and the call
    runs as it does without [limit], the effective limit being 5; a limit
    below zero passes the guard too and, once the page has arrived, the
    call returns the empty list. *)
Theorem zero_and_negative_limits
    (net : network) (props : list (string * Js.value)) (q : string) (t : trace) :
  Js.lookup "query" props = Js.VString q ->
  (forall z, Js.lookup "limit" props = Js.VNumber (Js.Finite z) -> (z == 0)%Q ->
     Variant1.isValidSearchArgs (Js.VObject props) = true /\
     Variant1.effectiveLimit (Some (Js.Finite z)) = Js.of_nat 5 /\
     Variant1.effectiveLimit None = Js.of_nat 5 /\
     Variant1.callTool net "search" (Js.VObject props) t =
     Variant1.callTool net "search" (Js.VObject [("query", Js.VString q)]) t) /\
  (forall n response, Js.lookup "limit" props = Js.VNumber n ->
     lt n (Js.of_nat 0) = true ->
     net endpoint q = Some response ->
     Variant1.isValidSearchArgs (Js.VObject props) = true /\
     Variant1.callTool net "search" (Js.VObject props) t =
       (Returned (envelope []), t ++ [request q])).
Proof.
  intros Hq. split.
  - intros z Hl Hz.
    assert (Hvalid : Variant1.isValidSearchArgs (Js.VObject props) = true).
    { unfold Variant1.isValidSearchArgs. simpl. rewrite Hq, Hl. reflexivity. }
    assert (Heff : Variant1.effectiveLimit (Some (Js.Finite z)) = Js.of_nat 5).
    { unfold Variant1.effectiveLimit, or_number. simpl.
      apply Qeq_bool_iff in Hz. unfold inject_Z in *. rewrite Hz. reflexivity. }
    repeat split; [exact Hvalid | exact Heff |].
    rewrite (RunFacts.callTool_search net (Js.VObject props)
               {| query := q; limit := Some (Js.Finite z) |} t Hvalid)
      by (unfold Variant1.asSearchArgs; simpl; now rewrite Hq, Hl).
    rewrite (RunFacts.callTool_search net (Js.VObject [("query", Js.VString q)])
               {| query := q; limit := None |} t) by reflexivity.
    simpl. rewrite Heff. reflexivity.
  - intros n response Hl Hneg Hnet.
    assert (Hvalid : Variant1.isValidSearchArgs (Js.VObject props) = true).
    { unfold Variant1.isValidSearchArgs. simpl. rewrite Hq, Hl. reflexivity. }
    split; [exact Hvalid|].
    rewrite (RunFacts.callTool_search net (Js.VObject props)
               {| query := q; limit := Some n |} t Hvalid)
      by (unfold Variant1.asSearchArgs; simpl; now rewrite Hq, Hl).
    simpl. rewrite Hnet.
    assert (Heff : lt (Variant1.effectiveLimit (Some n)) (Js.of_nat 0) = true).
    { unfold Variant1.effectiveLimit, or_number.
      rewrite (NumberFacts.negative_truthy _ Hneg).
      destruct n as [| | |p]; simpl in *; try discriminate; try reflexivity.
      assert (Hp : Qle_bool p (inject_Z 10) = true).
      { apply Qle_bool_iff.
        destruct (Qlt_le_dec p (inject_Z 0)) as [H | H].
        - apply Qlt_le_weak. eapply Qlt_le_trans; [exact H|].
          rewrite <- Zle_Qle. lia.
        - apply Qle_bool_iff in H. apply negb_true_iff in Hneg. congruence. }
      rewrite Hp. exact Hneg. }
    rewrite (ScanFacts.visited_negative _ _ Heff). reflexivity.
Qed.

Lemma zero_and_negative_limits_witness :
  (Variant1.isValidSearchArgs (args "rust" (Js.VNumber (Js.of_nat 0))) = true /\
   Variant1.effectiveLimit (Some (Js.of_nat 0)) = Js.of_nat 5 /\
   Variant1.effectiveLimit None = Js.of_nat 5 /\
   Variant1.callTool (serve (page [rust; book])) "search"
     (args "rust" (Js.VNumber (Js.of_nat 0))) [] =
   Variant1.callTool (serve (page [rust; book])) "search"
     (Js.VObject [("query", Js.VString "rust")]) []) /\
  (Variant1.isValidSearchArgs (args "rust" (Js.VNumber (Js.of_Z (-3)))) = true /\
   Variant1.callTool (serve (page [rust; book])) "search"
     (args "rust" (Js.VNumber (Js.of_Z (-3)))) [] =
     (Returned (envelope []), [] ++ [request "rust"])).
Proof.
  split.
  - apply (proj1 (zero_and_negative_limits (serve (page [rust; book]))
                    [("query", Js.VString "rust"); ("limit", Js.VNumber (Js.of_nat 0))]
                    "rust" [] eq_refl) (inject_Z 0)); reflexivity.
  - apply (proj2 (zero_and_negative_limits (serve (page [rust; book]))
                    [("query", Js.VString "rust"); ("limit", Js.VNumber (Js.of_Z (-3)))]
                    "rust" [] eq_refl)
             (Js.of_Z (-3)) {| data := page [rust; book] |}); reflexivity.
Defined.

End Claims.

(* ------------------------------------------------------------------ *)
(** ** Further facts about the scan *)

Module MoreFacts.
Import Runtime Scan.
#[local] Arguments Js.ge : simpl never.
#[local] Arguments Js.of_nat : simpl never.

Lemma collect_app (l1 l2 : list Dom.node) :
  collect (l1 ++ l2) = collect l1 ++ collect l2.
Proof. unfold collect. apply flat_map_app. Qed.

(** The blocks reached are a prefix of the blocks. *)
Lemma visited_firstn (limit : Js.number) (blocks : list Dom.node) :
  forall i, visited i limit blocks = firstn (List.length (visited i limit blocks)) blocks.
Proof.
  induction blocks as [|element rest IH]; intros i; simpl; [reflexivity|].
  destruct (Js.ge (Js.of_nat i) limit); simpl; [reflexivity|].
  f_equal. apply IH.
Qed.

(** A larger limit reaches the same blocks and possibly more. *)
Lemma visited_mono (a b : Js.number) (blocks : list Dom.node) :
  Js.le a b = true ->
  forall i, exists more, visited i b blocks = visited i a blocks ++ more.
Proof.
  intros Hab. induction blocks as [|element rest IH]; intros i; simpl.
  - exists []. reflexivity.
  - destruct (Js.ge (Js.of_nat i) a) eqn:Ea.
    + eexists. reflexivity.
    + destruct (Js.ge (Js.of_nat i) b) eqn:Eb.
      * unfold Js.le in Hab.
        rewrite (NumberFacts.ge_trans _ _ _ Eb Hab) in Ea. discriminate.
      * destruct (IH (S i)) as [more Hmore]. exists more.
        simpl. now rewrite Hmore.
Qed.

(** Every block is reached when the limit is NaN or at least the index
    past the last block. *)
Lemma visited_all (limit : Js.number) (blocks : list Dom.node) :
  forall i,
    limit = Js.NaN \/ Js.ge limit (Js.of_nat (i + List.length blocks)) = true ->
    visited i limit blocks = blocks.
Proof.
  induction blocks as [|element rest IH]; intros i H; simpl; [reflexivity|].
  assert (E : Js.ge (Js.of_nat i) limit = false).
  { destruct H as [-> | H].
    - unfold Js.ge. now destruct (Js.of_nat i).
    - apply not_true_is_false. intro Hi.
      pose proof (NumberFacts.ge_trans _ _ _ Hi H) as Hc.
      rewrite NumberFacts.ge_of_nat in Hc. apply Nat.leb_le in Hc.
      simpl in Hc. lia. }
  rewrite E. f_equal. apply IH.
  simpl in H. now rewrite Nat.add_succ_comm.
Qed.


(** A number the schema of [limit] accepts is truthy. *)
Lemma at_least_one_truthy (n : Js.number) :
  Js.ge n (Js.of_nat 1) = true -> Js.truthy (Js.VNumber n) = true.
Proof.
  unfold Js.ge, Js.of_nat, Js.of_Z.
  destruct n as [| | |q]; simpl; try discriminate; try reflexivity.
  intros Hge. apply negb_true_iff. apply not_true_is_false. intro E.
  apply Qeq_bool_iff in E. apply Qle_bool_iff in Hge.
  rewrite E in Hge. vm_compute in Hge. now apply Hge.
Qed.

Lemma effectiveLimit_le_10 (requested : option Js.number) :
  Js.le (Variant1.effectiveLimit requested) (Js.of_nat 10) = true.
Proof.
  unfold Variant1.effectiveLimit.
  apply NumberFacts.Math_min_le_r; [|reflexivity].
  apply NumberFacts.or_number_not_NaN. discriminate.
Qed.



(** The guard accepts, or names what is wrong. *)
Lemma isValidSearchArgs_false (arguments : Js.value) :
  Variant1.isValidSearchArgs arguments = false ->
  (forall q, Js.get arguments "query" <> Js.VString q) \/
  (Js.get arguments "limit" <> Js.VUndefined /\
   forall n, Js.get arguments "limit" <> Js.VNumber n).
Proof.
  intros H.
  destruct (Js.get arguments "query") as [| | | |q| |] eqn:Eq;
    try (left; intros q'; discriminate).
  right.
  destruct arguments as [| | | | | |props]; simpl in Eq; try discriminate.
  unfold Variant1.isValidSearchArgs in H. simpl in H. rewrite Eq in H. simpl in H.
  simpl.
  destruct (Js.lookup "limit" props); simpl in H; try discriminate;
    split; congruence.
Qed.

End MoreFacts.

(* ------------------------------------------------------------------ *)
(** ** Further properties of the code *)

Module Properties.
Import Runtime Scan Fixtures MoreFixtures.

(** *** The guard and the handler *)

(** X1.  [isValidSearchArgs] accepts exactly the objects whose [query] is a
    string and whose [limit] is undefined or a number.  It rejects exactly
    when [query] is not a string (null, arrays and other non-objects have
    none) or [limit] is present and not a number, such as [null] or a
    numeric string. *)
Theorem guard_accepts_exactly_search_structures (arguments : Js.value) :
  (Variant1.isValidSearchArgs arguments = true <-> SearchStructure arguments) /\
  (Variant1.isValidSearchArgs arguments = false <->
   (forall q, Js.get arguments "query" <> Js.VString q) \/
   (Js.get arguments "limit" <> Js.VUndefined /\
    forall n, Js.get arguments "limit" <> Js.VNumber n)).
Proof.
  split; [apply RunFacts.isValidSearchArgs_iff|]. split.
  - apply MoreFacts.isValidSearchArgs_false.
  - intros H. apply not_true_is_false. intro Hvalid.
    apply RunFacts.isValidSearchArgs_iff in Hvalid.
    destruct Hvalid as [props [q [-> [Hq Hl]]]]. simpl in H.
    destruct H as [H | [Hu Hn]].
    + exact (H q Hq).
    + destruct Hl as [Hl | [n Hl]]; [exact (Hu Hl) | exact (Hn n Hl)].
Qed.


(** X3.  The handler sends exactly one request when the call names
    [search] and the guard accepts the arguments, whether the upstream
    answers or fails, and none otherwise: a failed request is not tried
    again, and a rejected call costs no request. *)
Theorem callTool_sends_one_request_iff_valid
    (net : network) (name : string) (arguments : Js.value) (t : trace) :
  fetches (snd (Variant1.callTool net name arguments t)) =
  Nat.add (fetches t)
    (if String.eqb name "search" && Variant1.isValidSearchArgs arguments then 1 else 0).
Proof.
  destruct (Variant1.isValidSearchArgs arguments) eqn:Hvalid.
  - destruct (String.eqb_spec name "search") as [-> | Hname]; simpl.
    + destruct (RunFacts.asSearchArgs_valid _ Hvalid) as [args Hargs].
      rewrite (RunFacts.callTool_search net _ _ t Hvalid Hargs).
      destruct (net endpoint (query args)); simpl;
        unfold fetches; rewrite filter_app, length_app; reflexivity.
    + unfold Variant1.callTool.
      destruct (String.eqb_spec name "search"); [contradiction|]. simpl. lia.
  - rewrite RunFacts.callTool_rejected by exact Hvalid.
    rewrite andb_false_r. destruct (name =? "search"); simpl; lia.
Qed.

(** *** The limit *)

(** X4.  A limit the advertised schema accepts (a number from 1 to 10, or
    none) is used as it is by both variants: the first variant's
    [Math.min(limit || 5, 10)] and the second variant's [limit || 5] are
    the requested number, or 5 when there is none. *)
Theorem limit_in_advertised_range_is_used_as_is (requested : option Js.number) :
  Variant2.limitSchema requested = true ->
  Variant1.effectiveLimit requested = or_number requested (Js.of_nat 5) /\
  or_number requested (Js.of_nat 5) =
    match requested with Some n => n | None => Js.of_nat 5 end.
Proof.
  destruct requested as [n|]; [|intros _; split; reflexivity].
  unfold Variant2.limitSchema. intros H. apply andb_prop in H as [Hge Hle].
  unfold Variant1.effectiveLimit, or_number.
  rewrite (MoreFacts.at_least_one_truthy _ Hge). split; [|reflexivity].
  unfold Js.le, Js.ge, Js.of_nat, Js.of_Z in *.
  destruct n as [| | |q]; simpl in *; try discriminate.
  now rewrite Hle.
Qed.

Lemma limit_in_advertised_range_is_used_as_is_witness :
  Variant1.effectiveLimit (Some (Js.of_nat 3)) = or_number (Some (Js.of_nat 3)) (Js.of_nat 5) /\
  or_number (Some (Js.of_nat 3)) (Js.of_nat 5) = Js.of_nat 3.
Proof.
  apply (limit_in_advertised_range_is_used_as_is (Some (Js.of_nat 3))).
  reflexivity.
Defined.

(** X5.  In the first variant every limit above 10, infinity included,
    becomes exactly 10. *)
Theorem limit_above_ten_becomes_ten (n : Js.number) :
  lt (Js.of_nat 10) n = true ->
  Variant1.effectiveLimit (Some n) = Js.of_nat 10.
Proof.
  unfold lt, Js.ge, Variant1.effectiveLimit, or_number, Js.of_nat, Js.of_Z.
  destruct n as [| | |q]; simpl; try discriminate; try reflexivity.
  intros H. apply negb_true_iff in H.
  assert (Hnz : Qeq_bool q (inject_Z 0) = false).
  { apply not_true_is_false. intro E. apply Qeq_bool_iff in E.
    assert (Hq : Qle_bool q (inject_Z 10) = true).
    { apply Qle_bool_iff. rewrite E. rewrite <- Zle_Qle. lia. }
    simpl in Hq. congruence. }
  rewrite Hnz. simpl. now rewrite H.
Qed.

Lemma limit_above_ten_becomes_ten_witness :
  Variant1.effectiveLimit (Some (Js.of_nat 50)) = Js.of_nat 10.
Proof.
  apply (limit_above_ten_becomes_ten (Js.of_nat 50)). reflexivity.
Defined.

(** X6.  Whatever limit is asked for, the handler reads a prefix of at most
    ten candidate blocks of the page and returns the records of the
    well-formed blocks of that prefix: a block after the tenth candidate is
    never reported. *)
Theorem handler_reads_at_most_ten_blocks
    (net : network) (arguments : Js.value) (t t' : trace) (r : CallToolResult) :
  Variant1.callTool net "search" arguments t = (Returned r, t') ->
  exists args response k,
    Variant1.asSearchArgs arguments = Some args /\
    net endpoint (query args) = Some response /\
    (k <= 10)%nat /\
    r = envelope (collect (firstn k (Cheerio.select (data response) "div.g"))).
Proof.
  intros Hrun.
  destruct (Variant1.isValidSearchArgs arguments) eqn:Hvalid.
  - destruct (RunFacts.asSearchArgs_valid _ Hvalid) as [args Hargs].
    rewrite (RunFacts.callTool_search net _ _ t Hvalid Hargs) in Hrun.
    destruct (net endpoint (query args)) as [response|] eqn:Hnet; [|discriminate].
    injection Hrun as <- <-.
    exists args, response.
    exists (List.length (visited 0 (Variant1.effectiveLimit (limit args))
                           (Cheerio.select (data response) "div.g"))).
    split; [exact Hargs|]. split; [exact Hnet|]. split.
    + pose proof (ScanFacts.visited_length _ 10
                    (Cheerio.select (data response) "div.g")
                    (MoreFacts.effectiveLimit_le_10 (limit args)) 0). lia.
    + now rewrite <- MoreFacts.visited_firstn.
  - rewrite RunFacts.callTool_rejected in Hrun by exact Hvalid.
    simpl in Hrun. discriminate.
Qed.

Lemma handler_reads_at_most_ten_blocks_witness :
  exists args response k,
    Variant1.asSearchArgs (Fixtures.args "rust" (Js.VNumber (Js.of_nat 50))) = Some args /\
    serve (page [rust; blockNoAnchor; book]) endpoint (query args) = Some response /\
    (k <= 10)%nat /\
    envelope [rustRecord; bookRecord] =
      envelope (collect (firstn k (Cheerio.select (data response) "div.g"))).
Proof.
  apply (handler_reads_at_most_ten_blocks
           (serve (page [rust; blockNoAnchor; book]))
           (Fixtures.args "rust" (Js.VNumber (Js.of_nat 50))) [] [request "rust"]).
  vm_compute. reflexivity.
Defined.

(** *** The scan *)

(** X7.  Raising the limit only appends: the result for a limit is a prefix
    of the result, on the same page, for any limit that is not smaller. *)
Theorem raising_the_limit_only_appends
    (net : network) (q : string) (a b : Js.number) (t : trace)
    (response : AxiosResponse) :
  net endpoint q = Some response ->
  Js.le a b = true ->
  exists results more,
    Variant1.performSearch net q a t = (Returned results, t ++ [request q]) /\
    Variant1.performSearch net q b t = (Returned (results ++ more), t ++ [request q]).
Proof.
  intros Hnet Hab.
  destruct (MoreFacts.visited_mono a b (Cheerio.select (data response) "div.g") Hab 0)
    as [more Hmore].
  exists (collect (visited 0 a (Cheerio.select (data response) "div.g"))), (collect more).
  rewrite !RunFacts.performSearch_run, Hnet, Hmore, MoreFacts.collect_app.
  split; reflexivity.
Qed.

Lemma raising_the_limit_only_appends_witness :
  exists results more,
    Variant1.performSearch (serve (page [rust; blockNoAnchor; book])) "rust"
      half [] = (Returned results, [] ++ [request "rust"]) /\
    Variant1.performSearch (serve (page [rust; blockNoAnchor; book])) "rust"
      (Js.of_nat 3) [] = (Returned (results ++ more), [] ++ [request "rust"]).
Proof.
  apply (raising_the_limit_only_appends
           (serve (page [rust; blockNoAnchor; book])) "rust" half (Js.of_nat 3) []
           {| data := page [rust; blockNoAnchor; book] |}); reflexivity.
Defined.

(** X8.  [performSearch] reads the whole page when its limit is NaN or is
    at least the number of candidate blocks: it then returns the record of
    every well-formed block. *)
Theorem whole_page_is_read_without_bound
    (net : network) (q : string) (limit : Js.number) (t : trace)
    (response : AxiosResponse) :
  net endpoint q = Some response ->
  limit = Js.NaN \/
  Js.ge limit (Js.of_nat (List.length (Cheerio.select (data response) "div.g"))) = true ->
  Variant1.performSearch net q limit t =
    (Returned (collect (Cheerio.select (data response) "div.g")), t ++ [request q]).
Proof.
  intros Hnet Hlimit.
  rewrite RunFacts.performSearch_run, Hnet, MoreFacts.visited_all; [reflexivity|].
  exact Hlimit.
Qed.

Lemma whole_page_is_read_without_bound_witness :
  Variant1.performSearch (serve (page [rust; blockNoAnchor; book])) "rust" Js.NaN [] =
    (Returned (collect (Cheerio.select (page [rust; blockNoAnchor; book]) "div.g")),
     [] ++ [request "rust"]).
Proof.
  apply (whole_page_is_read_without_bound
           (serve (page [rust; blockNoAnchor; book])) "rust" Js.NaN []
           {| data := page [rust; blockNoAnchor; book] |}).
  - reflexivity.
  - left. reflexivity.
Defined.



(** *** The second variant *)

(** X10.  The two [performSearch] functions differ by the debug line and
    the leading record only: on the same upstream the second sends the same
    request after its debug line, fails with the same error when the first
    fails, and otherwise returns the first's result behind the fixed
    record. *)
Theorem second_performSearch_is_first_behind_placeholder
    (net : network) (q : string) (limit : Js.number) (t : trace) :
  Variant2.performSearch net q limit t =
  match Variant1.performSearch net q limit t with
  | (Returned results, _) =>
      (Returned (Variant2.placeholder :: results),
       t ++ [ConsoleDebug q limit; request q])
  | (Thrown e, _) => (Thrown e, t ++ [ConsoleDebug q limit; request q])
  end.
Proof.
  rewrite RunFacts.performSearch_run, RunFacts.performSearch2_run.
  destruct (net endpoint q); reflexivity.
Qed.

(** X11.  When the tool callback of the second variant returns, on a limit
    its schema accepts, the text it returns renders the same object as its
    structured content, [{ results }]; the results start with the fixed
    record and number at most one more than every whole number not below
    [limit || 5], so at most 11. *)
Theorem searchTool_text_and_structure_agree
    (net : network) (args : SearchArgs) (t t' : trace) (r : CallToolResult) :
  Variant2.limitSchema (limit args) = true ->
  Variant2.searchTool net args t = (Returned r, t') ->
  exists results,
    structuredContent r = Some (Structured (Variant2.placeholder :: results)) /\
    content r =
      [ {| type := "text";
           text := JSON_stringify (Structured (Variant2.placeholder :: results)) 2 |} ] /\
    (List.length (Variant2.placeholder :: results) <= 11)%nat /\
    (forall n, Js.le (or_number (limit args) (Js.of_nat 5)) (Js.of_nat n) = true ->
               (List.length (Variant2.placeholder :: results) <= S n)%nat).
Proof.
  intros Hschema Hrun.
  unfold Variant2.searchTool, bind in Hrun.
  rewrite RunFacts.performSearch2_run in Hrun.
  destruct (net endpoint (query args)) as [response|]; [|discriminate].
  cbv zeta in Hrun. unfold ret in Hrun. injection Hrun as <- <-.
  eexists. split; [reflexivity|]. split; [reflexivity|].
  assert (Hn : forall n,
             Js.le (or_number (limit args) (Js.of_nat 5)) (Js.of_nat n) = true ->
             (List.length
                (Variant2.placeholder ::
                 collect (visited 0 (or_number (limit args) (Js.of_nat 5))
                            (Cheerio.select (data response) "div.g"))) <= S n)%nat).
  { intros n Hle. simpl. apply le_n_S.
    etransitivity; [apply ScanFacts.collect_length|].
    pose proof (ScanFacts.visited_length _ n
                  (Cheerio.select (data response) "div.g") Hle 0). lia. }
  split; [|exact Hn].
  apply (Hn 10%nat).
  destruct (limit args) as [n|]; [|reflexivity].
  unfold Variant2.limitSchema in Hschema. apply andb_prop in Hschema as [Hge Hle].
  unfold or_number. now rewrite (MoreFacts.at_least_one_truthy _ Hge).
Qed.

Lemma searchTool_text_and_structure_agree_witness :
  exists results,
    Some (Structured [Variant2.placeholder; rustRecord]) =
      Some (Structured (Variant2.placeholder :: results)) /\
    [ {| type := "text";
         text := JSON_stringify (Structured [Variant2.placeholder; rustRecord]) 2 |} ] =
      [ {| type := "text";
           text := JSON_stringify (Structured (Variant2.placeholder :: results)) 2 |} ] /\
    (List.length (Variant2.placeholder :: results) <= 11)%nat /\
    (forall n, Js.le (or_number (Some (Js.of_nat 1)) (Js.of_nat 5)) (Js.of_nat n) = true ->
               (List.length (Variant2.placeholder :: results) <= S n)%nat).
Proof.
  apply (searchTool_text_and_structure_agree
           (serve (page [rust; book]))
           {| query := "rust"; limit := Some (Js.of_nat 1) |} []
           [ConsoleDebug "rust" (Js.of_nat 1); request "rust"]
           {| content :=
                [ {| type := "text";
                     text := JSON_stringify
                               (Structured [Variant2.placeholder; rustRecord]) 2 |} ];
              structuredContent := Some (Structured [Variant2.placeholder; rustRecord]) |});
    reflexivity.
Defined.

(** *** Discovery and dispatch *)

(** X12.  Listing the tools has no effect on the trace, and the list agrees
    with the dispatch: a call is answered [MethodNotFound] exactly when its
    name is not in the list.  The [maximum] the list advertises for
    [limit] bounds the limit the handler searches with, whatever is
    requested. *)
Theorem listed_tools_are_the_tools_dispatched
    (net : network) (name : string) (arguments : Js.value) (t t0 : trace) :
  exists listed,
    Discovery.listTools t0 = (Returned listed, t0) /\
    ((exists tool, In tool (Discovery.tools listed) /\ Discovery.name tool = name) <->
     (forall message,
         fst (Variant1.callTool net name arguments t) <>
         Thrown (McpError MethodNotFound message))) /\
    (forall tool, In tool (Discovery.tools listed) ->
       exists maximum,
         Js.get (Js.get (Js.get (Discovery.inputSchema tool) "properties") "limit")
           "maximum" = Js.VNumber maximum /\
         forall requested, Js.le (Variant1.effectiveLimit requested) maximum = true).
Proof.
  eexists. split; [reflexivity|]. split; [split|].
  - intros [tool [[<- | []] <-]] message. simpl.
    destruct (Variant1.isValidSearchArgs arguments) eqn:Hvalid.
    + destruct (RunFacts.asSearchArgs_valid _ Hvalid) as [args Hargs].
      rewrite (RunFacts.callTool_search net _ _ t Hvalid Hargs).
      destruct (net endpoint (query args)); discriminate.
    + rewrite RunFacts.callTool_rejected by exact Hvalid. discriminate.
  - intros Hnot. destruct (String.eqb_spec name "search") as [-> | Hname].
    + eexists. split; [left; reflexivity | reflexivity].
    + exfalso. apply (Hnot ("Unknown tool: " ++ name)%string).
      unfold Variant1.callTool.
      destruct (String.eqb_spec name "search"); [contradiction | reflexivity].
  - intros tool [<- | []]. exists (Js.of_nat 10). split; [reflexivity|].
    apply MoreFacts.effectiveLimit_le_10.
Qed.

(** X14.  The handler reads [query] and [limit] and nothing else: two
    argument objects that agree on these two properties are handled alike,
    so properties the schema does not name are ignored, not rejected. *)
Theorem other_properties_are_ignored
    (net : network) (name : string) (props1 props2 : list (string * Js.value))
    (t : trace) :
  Js.lookup "query" props1 = Js.lookup "query" props2 ->
  Js.lookup "limit" props1 = Js.lookup "limit" props2 ->
  Variant1.callTool net name (Js.VObject props1) t =
  Variant1.callTool net name (Js.VObject props2) t.
Proof.
  intros Hq Hl.
  unfold Variant1.callTool, Variant1.isValidSearchArgs, Variant1.asSearchArgs.
  cbn [Js.get Js.typeof Js.is_null]. now rewrite Hq, Hl.
Qed.

Lemma other_properties_are_ignored_witness :
  Variant1.callTool (serve (page [rust])) "search"
    (Js.VObject [("query", Js.VString "rust")]) [] =
  Variant1.callTool (serve (page [rust])) "search"
    (Js.VObject [("verbose", Js.VBoolean true); ("query", Js.VString "rust");
                 ("page", Js.VNumber (Js.of_nat 2))]) [].
Proof.
  apply (other_properties_are_ignored (serve (page [rust])) "search"
           [("query", Js.VString "rust")]
           [("verbose", Js.VBoolean true); ("query", Js.VString "rust");
            ("page", Js.VNumber (Js.of_nat 2))] []); reflexivity.
Defined.

(** *** The first anchor *)

(** X15.  Only the first anchor of a block is looked at: when it has no
    [href], or one that does not start with [http], the block yields no
    record, whatever anchors follow it in the block. *)
Theorem first_anchor_decides
    (limit : Js.number) (i : nat) (element first : Dom.node) (others : list Dom.node)
    (results : list SearchResult) :
  Cheerio.find element "a" = first :: others ->
  (forall href, Cheerio.attr [first] "href" = Some href ->
                String.prefix "http" href = false) ->
  fst (Extractor.callback limit i element results) = results /\
  extract element = None.
Proof.
  intros Hfind Hfirst.
  assert (Hnone : extract element = None).
  { apply ScanFacts.extract_None. right. right. intros href Hhref.
    apply Hfirst. rewrite Hfind in Hhref. destruct first; exact Hhref. }
  split; [|exact Hnone].
  rewrite ScanFacts.callback_extract, Hnone.
  destruct (Js.ge (Js.of_nat i) limit); simpl; [reflexivity | apply app_nil_r].
Qed.

Lemma first_anchor_decides_witness :
  fst (Extractor.callback (Js.of_nat 5) 0 twoAnchors [rustRecord]) = [rustRecord] /\
  extract twoAnchors = None.
Proof.
  apply (first_anchor_decides (Js.of_nat 5) 0 twoAnchors
           (Dom.Element "a" [("href", "/url?q=cache")] [Dom.Text "Cached"])
           [Dom.Element "a" [("href", "https://www.rust-lang.org/")]
              [Dom.Element "h3" [] [Dom.Text "Rust Programming Language"]]]
           [rustRecord]).
  - reflexivity.
  - intros href H. injection H as <-. reflexivity.
Defined.

(** *** The POST route *)

(** X13.  When the transport throws, the POST route of either variant logs
    the error and leaves a response whose headers are sent.  If the
    transport had not sent them, the response is status 500 with the
    JSON-RPC error -32603, whose [id] is [null] in the first variant and, in
    the second, the [id] of the request body when that is truthy and [null]
    otherwise; if it had, the response is left as the transport wrote
    it. *)
Theorem post_answers_when_transport_throws
    (E : Type)
    (handleRequest :
       Express.Request -> Express.Response -> Js.value -> option E * Express.Response)
    (req : Express.Request) (res res' : Express.Response) (error : E) :
  handleRequest req res (Express.body req) = (Some error, res') ->
  let id := Js.get (Express.body req) "id" in
  let answer1 := fst (Http1.post E None handleRequest req res) in
  let answer2 := fst (Http2.post E handleRequest req res) in
  Express.headersSent answer1 = true /\
  Express.headersSent answer2 = true /\
  (Express.headersSent res' = true -> answer1 = res' /\ answer2 = res') /\
  (Express.headersSent res' = false ->
     Express.statusCode answer1 = 500%nat /\
     Express.sent answer1 = Some (Express.internalError Js.VNull) /\
     Express.statusCode answer2 = 500%nat /\
     Express.sent answer2 =
       Some (Express.internalError (if Js.truthy id then id else Js.VNull))) /\
  snd (Http1.post E None handleRequest req res) =
    [Express.ConsoleError "Error handling MCP request:" error] /\
  snd (Http2.post E handleRequest req res) =
    [Express.ConsoleError "Error handling MCP request:" error].
Proof.
  intros Hthrow id answer1 answer2. subst answer1 answer2.
  unfold Http1.post, Http2.post. rewrite Hthrow. cbv zeta. cbn [fst snd].
  destruct (Express.headersSent res') eqn:Hsent; cbn [negb].
  - repeat split; try assumption; discriminate.
  - repeat split; intros; try discriminate; reflexivity.
Qed.

Lemma post_answers_when_transport_throws_witness :
  let id := Js.get (Express.body (rpc (Js.VNumber (Js.of_nat 0)))) "id" in
  let answer1 := fst (Http1.post string None failing (rpc (Js.VNumber (Js.of_nat 0))) fresh) in
  let answer2 := fst (Http2.post string failing (rpc (Js.VNumber (Js.of_nat 0))) fresh) in
  Express.headersSent answer1 = true /\
  Express.headersSent answer2 = true /\
  (Express.headersSent fresh = true -> answer1 = fresh /\ answer2 = fresh) /\
  (Express.headersSent fresh = false ->
     Express.statusCode answer1 = 500%nat /\
     Express.sent answer1 = Some (Express.internalError Js.VNull) /\
     Express.statusCode answer2 = 500%nat /\
     Express.sent answer2 =
       Some (Express.internalError (if Js.truthy id then id else Js.VNull))) /\
  snd (Http1.post string None failing (rpc (Js.VNumber (Js.of_nat 0))) fresh) =
    [Express.ConsoleError "Error handling MCP request:" "boom"] /\
  snd (Http2.post string failing (rpc (Js.VNumber (Js.of_nat 0))) fresh) =
    [Express.ConsoleError "Error handling MCP request:" "boom"].
Proof.
  apply (post_answers_when_transport_throws string failing
           (rpc (Js.VNumber (Js.of_nat 0))) fresh fresh "boom").
  reflexivity.
Defined.

End Properties.
